(** * upswing: response helpers, resource container and application bootstrap

    A shallow embedding of [src/utilities/response.py],
    [src/resources/objects.py] and [src/main.py], with the properties the
    specification states about them.

    Python values are a small inductive type; a [dict] is the list of its
    items in insertion order.  A function that raises returns an [outcome];
    code that logs, calls the database or broker drivers and assigns
    attributes runs in a state-and-exception monad over an explicit store. *)

From Stdlib Require Import String Ascii List ZArith Bool Lia.
Import ListNotations.
Open Scope string_scope.

Set Warnings "-register-all".

(** ** Python values *)

Module Py.

Inductive value : Type :=
| VNone
| VBool (b : bool)
| VInt (z : Z)
| VStr (s : string)
| VList (xs : list value)
| VDict (items : list (string * value)).

(** [d.get(k)]: the dict literals of this program never repeat a key, the
    first binding is the one looked up. *)
Fixpoint assoc_get (k : string) (items : list (string * value)) : option value :=
  match items with
  | [] => None
  | (k', v) :: rest => if String.eqb k k' then Some v else assoc_get k rest
  end.

Definition dict_get (k : string) (d : value) : option value :=
  match d with
  | VDict items => assoc_get k items
  | _ => None
  end.

(** [list(d.keys())], [None] when [d] is not a dict. *)
Definition dict_keys (d : value) : option (list string) :=
  match d with
  | VDict items => Some (map fst items)
  | _ => None
  end.

(** [d[k] = v]: a key already there keeps its place and takes the value. *)
Fixpoint assoc_set (k : string) (v : value) (items : list (string * value))
  : list (string * value) :=
  match items with
  | [] => [(k, v)]
  | (k', v') :: rest =>
      if String.eqb k k' then (k', v) :: rest
      else (k', v') :: assoc_set k v rest
  end.

(** [dict(pairs)]: of a repeated key the last value is kept. *)
Definition dict_of_items (pairs : list (string * value))
  : list (string * value) :=
  fold_left (fun d kv => assoc_set (fst kv) (snd kv) d) pairs [].

(** What a Python object can be: no dict in it has a key twice. *)
Fixpoint well_formed (v : value) : Prop :=
  match v with
  | VList xs =>
      (fix all (l : list value) : Prop :=
         match l with
         | [] => True
         | x :: rest => well_formed x /\ all rest
         end) xs
  | VDict items =>
      NoDup (map fst items) /\
      (fix all (l : list (string * value)) : Prop :=
         match l with
         | [] => True
         | (_, x) :: rest => well_formed x /\ all rest
         end) items
  | _ => True
  end.

Definition well_formed_arg (supplied : option value) : Prop :=
  match supplied with
  | Some v => well_formed v
  | None => True
  end.

(** The result of a call: a returned value or a raised exception. *)
Inductive outcome (E A : Type) : Type :=
| Return (a : A)
| Raise (e : E).

Arguments Return {E A} a.
Arguments Raise {E A} e.

(** A keyword parameter with a default: [None] is an omitted argument. *)
Definition arg (default : value) (supplied : option value) : value :=
  match supplied with
  | Some v => v
  | None => default
  end.

End Py.

Import Py.

(** ** JSON text

    [json.dumps] and [json.loads] on the values above.  [dumps] takes the
    two separators: Python's defaults are a comma and a colon, each
    followed by a space; the web framework's JSON response uses them bare
    and does not set [ensure_ascii].  A [string] here holds code points
    below 256, and a number is an integer: text with another escape or
    with a fraction or an exponent is not decoded. *)

Module json.

#[local] Open Scope char_scope.
#[local] Open Scope list_scope.

(** The double quote, character 34. *)
Abbreviation dquote := (Ascii false true false false false true false false)
  (only parsing).

Definition hex_digit (n : nat) : ascii :=
  match n with
  | 0%nat => "0" | 1%nat => "1" | 2%nat => "2" | 3%nat => "3"
  | 4%nat => "4" | 5%nat => "5" | 6%nat => "6" | 7%nat => "7"
  | 8%nat => "8" | 9%nat => "9" | 10%nat => "a" | 11%nat => "b"
  | 12%nat => "c" | 13%nat => "d" | 14%nat => "e" | _ => "f"
  end.

Definition hex_value (c : ascii) : option nat :=
  let n := nat_of_ascii c in
  (if andb (48 <=? n) (n <=? 57) then Some (n - 48)
   else if andb (97 <=? n) (n <=? 102) then Some (n - 87)
   else if andb (65 <=? n) (n <=? 70) then Some (n - 55)
   else None)%nat.

Definition digit_char (d : Z) : ascii := ascii_of_nat (48 + Z.to_nat d)%nat.

(** Decimal digits of a non-negative number, most significant first. *)
Fixpoint digits (fuel : nat) (z : Z) (acc : list ascii) : list ascii :=
  match fuel with
  | O => acc
  | S fuel' =>
      let acc' := digit_char (z mod 10)%Z :: acc in
      if (z <? 10)%Z then acc' else digits fuel' (z / 10)%Z acc'
  end.

Definition int_repr (z : Z) : list ascii :=
  if (z <? 0)%Z then "-" :: digits (S (Z.to_nat (Z.log2 (- z)))) (- z)%Z []
  else digits (S (Z.to_nat (Z.log2 z))) z [].

Section Dumps.

Variable ensure_ascii : bool.
Variables item_separator key_separator : list ascii.

(** A character of a string literal: the quote, the backslash and the
    control characters are escaped, and so is what lies beyond [~] when
    [ensure_ascii] is set. *)
Definition escape_char (c : ascii) : list ascii :=
  let n := nat_of_ascii c in
  if Ascii.eqb c dquote then ["\"; dquote]
  else if Ascii.eqb c "\" then ["\"; "\"]
  else if Nat.eqb n 10%nat then ["\"; "n"]
  else if Nat.eqb n 13%nat then ["\"; "r"]
  else if Nat.eqb n 9%nat then ["\"; "t"]
  else if Nat.eqb n 8%nat then ["\"; "b"]
  else if Nat.eqb n 12%nat then ["\"; "f"]
  else if (n <? 32)%nat || (ensure_ascii && (126 <? n)%nat)
       then ["\"; "u"; "0"; "0";
             hex_digit (n / 16)%nat; hex_digit (n mod 16)%nat]
  else [c].

Definition quote (s : string) : list ascii :=
  dquote :: flat_map escape_char (list_ascii_of_string s) ++ [dquote].

Fixpoint encode (v : value) : list ascii :=
  match v with
  | VNone => list_ascii_of_string "null"
  | VBool true => list_ascii_of_string "true"
  | VBool false => list_ascii_of_string "false"
  | VInt z => int_repr z
  | VStr s => quote s
  | VList xs =>
      "[" ::
      (fix elements (l : list value) : list ascii :=
         match l with
         | [] => []
         | x :: rest =>
             encode x ++
             match rest with
             | [] => []
             | _ :: _ => item_separator ++ elements rest
             end
         end) xs ++ ["]"]
  | VDict items =>
      "{" ::
      (fix members (l : list (string * value)) : list ascii :=
         match l with
         | [] => []
         | (k, x) :: rest =>
             quote k ++ key_separator ++ encode x ++
             match rest with
             | [] => []
             | _ :: _ => item_separator ++ members rest
             end
         end) items ++ ["}"]
  end.

(** The text between the brackets of a list, and between the braces of a
    dict, as [encode] writes them. *)
Definition elements : list value -> list ascii :=
  fix elements (l : list value) : list ascii :=
    match l with
    | [] => []
    | x :: rest =>
        encode x ++
        match rest with
        | [] => []
        | _ :: _ => item_separator ++ elements rest
        end
    end.

Definition members : list (string * value) -> list ascii :=
  fix members (l : list (string * value)) : list ascii :=
    match l with
    | [] => []
    | (k, x) :: rest =>
        quote k ++ key_separator ++ encode x ++
        match rest with
        | [] => []
        | _ :: _ => item_separator ++ members rest
        end
    end.

End Dumps.

(** [json.dumps(v)]. *)
Definition dumps (v : value) : string :=
  string_of_list_ascii (encode true [","; " "] [":"; " "] v).

(** [json.dumps(v, ensure_ascii=False, separators=(",", ":"))], the
    rendering of the framework's JSON response. *)
Definition dumps_compact (v : value) : string :=
  string_of_list_ascii (encode false [","] [":"] v).

Definition is_ws (c : ascii) : bool :=
  let n := nat_of_ascii c in
  (orb (orb (n =? 32) (n =? 9)) (orb (n =? 10) (n =? 13)))%nat.

Fixpoint skip_ws (cs : list ascii) : list ascii :=
  match cs with
  | c :: rest => if is_ws c then skip_ws rest else cs
  | [] => []
  end.

Definition is_digit (c : ascii) : bool :=
  let n := nat_of_ascii c in (andb (48 <=? n) (n <=? 57))%nat.

(** The digits at the head of [cs], read into [acc]. *)
Fixpoint scan_digits (acc : Z) (cs : list ascii) : Z * list ascii :=
  match cs with
  | c :: rest =>
      if is_digit c
      then scan_digits (10 * acc + Z.of_nat (nat_of_ascii c - 48)%nat)%Z rest
      else (acc, cs)
  | [] => (acc, [])
  end.

(** A number without fraction or exponent; the others are floats, which
    [value] does not hold. *)
Definition ends_number (rest : list ascii) : bool :=
  match rest with
  | [] => true
  | c :: _ =>
      negb (is_digit c || Ascii.eqb c "." || Ascii.eqb c "e" || Ascii.eqb c "E")
  end.

(** Digits, without a sign: a zero at the head is the whole number. *)
Definition scan_nat (cs : list ascii) : option (Z * list ascii) :=
  match cs with
  | d :: tl =>
      if is_digit d then
        if Ascii.eqb d "0" then
          if ends_number tl then Some (0%Z, tl) else None
        else
          let '(n, rest) := scan_digits 0%Z cs in
          if ends_number rest then Some (n, rest) else None
      else None
  | [] => None
  end.

Definition scan_int (cs : list ascii) : option (Z * list ascii) :=
  match cs with
  | c :: rest =>
      if Ascii.eqb c "-" then
        match scan_nat rest with
        | Some (n, rest') => Some ((- n)%Z, rest')
        | None => None
        end
      else scan_nat cs
  | [] => None
  end.

(** What a backslash followed by [e] stands for. *)
Definition unescape (e : ascii) : option ascii :=
  if Ascii.eqb e dquote then Some dquote
  else if Ascii.eqb e "\" then Some "\"
  else if Ascii.eqb e "/" then Some "/"
  else if Ascii.eqb e "n" then Some (ascii_of_nat 10%nat)
  else if Ascii.eqb e "r" then Some (ascii_of_nat 13%nat)
  else if Ascii.eqb e "t" then Some (ascii_of_nat 9%nat)
  else if Ascii.eqb e "b" then Some (ascii_of_nat 8%nat)
  else if Ascii.eqb e "f" then Some (ascii_of_nat 12%nat)
  else None.

(** The characters of a string literal after its opening quote.  Of the
    [\uXXXX] escapes only those below 256 are a character here. *)
Fixpoint scan_string (cs : list ascii) : option (list ascii * list ascii) :=
  match cs with
  | [] => None
  | c :: rest =>
      if Ascii.eqb c dquote then Some ([], rest)
      else if Ascii.eqb c "\" then
        match rest with
        | [] => None
        | e :: rest1 =>
            if Ascii.eqb e "u" then
              match rest1 with
              | z1 :: z2 :: h :: l :: rest2 =>
                  if Ascii.eqb z1 "0" && Ascii.eqb z2 "0" then
                    match hex_value h, hex_value l, scan_string rest2 with
                    | Some a, Some b, Some (s, rest') =>
                        Some (ascii_of_nat (16 * a + b)%nat :: s, rest')
                    | _, _, _ => None
                    end
                  else None
              | _ => None
              end
            else
              match unescape e, scan_string rest1 with
              | Some d, Some (s, rest') => Some (d :: s, rest')
              | _, _ => None
              end
        end
      else if (nat_of_ascii c <? 32)%nat then None
      else match scan_string rest with
           | Some (s, rest') => Some (c :: s, rest')
           | None => None
           end
  end.

(** [cs] without the literal [p] at its head. *)
Fixpoint strip_prefix (p cs : list ascii) : option (list ascii) :=
  match p, cs with
  | [], _ => Some cs
  | a :: p', c :: cs' => if Ascii.eqb a c then strip_prefix p' cs' else None
  | _ :: _, [] => None
  end.

Definition literal (word : string) (v : value) (cs : list ascii)
  : option (value * list ascii) :=
  match strip_prefix (list_ascii_of_string word) cs with
  | Some rest => Some (v, rest)
  | None => None
  end.

Fixpoint parse_value (fuel : nat) (cs : list ascii)
  : option (value * list ascii) :=
  match fuel with
  | O => None
  | S fuel' =>
      match skip_ws cs with
      | [] => None
      | c :: rest =>
          if Ascii.eqb c dquote then
            match scan_string rest with
            | Some (s, rest') => Some (VStr (string_of_list_ascii s), rest')
            | None => None
            end
          else if Ascii.eqb c "[" then
            match strip_prefix ["]"] (skip_ws rest) with
            | Some rest' => Some (VList [], rest')
            | None =>
                match parse_elements fuel' rest with
                | Some (xs, rest') => Some (VList xs, rest')
                | None => None
                end
            end
          else if Ascii.eqb c "{" then
            match strip_prefix ["}"] (skip_ws rest) with
            | Some rest' => Some (VDict [], rest')
            | None =>
                match parse_members fuel' rest with
                | Some (items, rest') =>
                    Some (VDict (dict_of_items items), rest')
                | None => None
                end
            end
          else if Ascii.eqb c "n" then literal "null" VNone (c :: rest)
          else if Ascii.eqb c "t" then literal "true" (VBool true) (c :: rest)
          else if Ascii.eqb c "f" then literal "false" (VBool false) (c :: rest)
          else
            match scan_int (c :: rest) with
            | Some (z, rest') => Some (VInt z, rest')
            | None => None
            end
      end
  end

with parse_elements (fuel : nat) (cs : list ascii)
  : option (list value * list ascii) :=
  match fuel with
  | O => None
  | S fuel' =>
      match parse_value fuel' cs with
      | Some (x, rest) =>
          match skip_ws rest with
          | [] => None
          | c :: rest' =>
              if Ascii.eqb c "]" then Some ([x], rest')
              else if Ascii.eqb c "," then
                match parse_elements fuel' rest' with
                | Some (xs, rest'') => Some (x :: xs, rest'')
                | None => None
                end
              else None
          end
      | None => None
      end
  end

with parse_members (fuel : nat) (cs : list ascii)
  : option (list (string * value) * list ascii) :=
  match fuel with
  | O => None
  | S fuel' =>
      match strip_prefix [dquote] (skip_ws cs) with
      | None => None
      | Some rest =>
          match scan_string rest with
          | None => None
          | Some (k, rest1) =>
              match strip_prefix [":"] (skip_ws rest1) with
              | None => None
              | Some rest2 =>
                  match parse_value fuel' rest2 with
                  | None => None
                  | Some (x, rest3) =>
                      match skip_ws rest3 with
                      | [] => None
                      | c :: rest' =>
                          if Ascii.eqb c "}" then
                            Some ([(string_of_list_ascii k, x)], rest')
                          else if Ascii.eqb c "," then
                            match parse_members fuel' rest' with
                            | Some (items, rest'') =>
                                Some ((string_of_list_ascii k, x) :: items,
                                      rest'')
                            | None => None
                            end
                          else None
                      end
                  end
              end
          end
      end
  end.

(** [json.loads(text)]: [None] stands for the decoder raising. *)
Definition loads (text : string) : option value :=
  let cs := list_ascii_of_string text in
  match parse_value (2 * List.length cs + 2)%nat cs with
  | Some (v, rest) =>
      match skip_ws rest with
      | [] => Some v
      | _ :: _ => None
      end
  | None => None
  end.

(** Calls of the decoder that reading a value back takes at most. *)
Fixpoint need (v : value) : nat :=
  match v with
  | VList xs =>
      S ((fix need_elements (l : list value) : nat :=
            match l with
            | [] => O
            | x :: rest => S (need x + need_elements rest)
            end) xs)
  | VDict items =>
      S ((fix need_members (l : list (string * value)) : nat :=
            match l with
            | [] => O
            | (_, x) :: rest => S (need x + need_members rest)
            end) items)
  | _ => 1%nat
  end.

Definition need_elements : list value -> nat :=
  fix need_elements (l : list value) : nat :=
    match l with
    | [] => O
    | x :: rest => S (need x + need_elements rest)
    end.

Definition need_members : list (string * value) -> nat :=
  fix need_members (l : list (string * value)) : nat :=
    match l with
    | [] => O
    | (_, x) :: rest => S (need x + need_members rest)
    end.

(** Blanks only. *)
Definition all_ws (ws : list ascii) : Prop :=
  Forall (fun c => is_ws c = true) ws.

(** What a value's text starts with: no blank and no closing bracket. *)
Definition opens_value (c : ascii) : Prop :=
  is_ws c = false /\ Ascii.eqb "]" c = false /\ Ascii.eqb "}" c = false.

(** The text of [v], written with a comma and a colon each followed by the
    blanks [iws] and [kws], reads back as [v]: after blanks, before a text
    at which a number ends, and with the calls [need] counts. *)
Definition reads_back (ensure_ascii : bool) (iws kws : list ascii)
  (v : value) : Prop :=
  forall fuel ws rest,
    (need v <= fuel)%nat -> all_ws ws -> ends_number rest = true ->
    parse_value fuel
      (ws ++ encode ensure_ascii ("," :: iws) (":" :: kws) v ++ rest)
    = Some (v, rest).

(** JSON text written with apostrophes where the wire has double quotes. *)
Definition text (s : string) : string :=
  string_of_list_ascii
    (map (fun c => if Ascii.eqb c "'" then dquote else c)
         (list_ascii_of_string s)).

End json.

(** ** fastapi names used by the helpers *)

Module status.
Definition HTTP_200_OK : Z := 200.
Definition HTTP_204_NO_CONTENT : Z := 204.
Definition HTTP_400_BAD_REQUEST : Z := 400.
Definition HTTP_401_UNAUTHORIZED : Z := 401.
Definition HTTP_404_NOT_FOUND : Z := 404.
Definition HTTP_409_CONFLICT : Z := 409.
Definition HTTP_500_INTERNAL_SERVER_ERROR : Z := 500.
End status.

(** [fastapi.HTTPException(status_code=..., detail=...)]. *)
Record HTTPException : Type := mkHTTPException {
  exc_status_code : Z;
  exc_detail : value
}.

(** [fastapi.Response(content=None, status_code=...)]: the body is the bytes
    rendered from [content], empty for [None]. *)
Record Response : Type := mkResponse {
  status_code : Z;
  body : string
}.

Definition render_content (content : option string) : string :=
  match content with
  | None => ""
  | Some b => b
  end.

Definition Response_init (content : option string) (code : Z) : Response :=
  {| status_code := code; body := render_content content |}.

(** ** utilities/response.py

    Each helper takes its keyword parameters as options, [None] for an
    argument left out.  The default [{}] of [data] and [paginator] is one
    object per function, made when the function is defined; nothing in
    this repository writes into it, so it is the empty dict at every
    call. *)

Module response.

Definition response_ok (message success data paginator : option value) : value :=
  let message := arg (VStr "Ok") message in
  let success := arg (VBool true) success in
  let data := arg (VDict []) data in
  let paginator := arg (VDict []) paginator in
  let response_data :=
    VDict [("message", message); ("success", success);
           ("data", data); ("paginator", paginator)] in
  response_data.

Definition response_created (message success data paginator : option value) : value :=
  let message := arg (VStr "Resource created") message in
  let success := arg (VBool true) success in
  let data := arg (VDict []) data in
  let paginator := arg (VDict []) paginator in
  let response_data :=
    VDict [("message", message); ("success", success);
           ("data", data); ("paginator", paginator)] in
  response_data.

Definition response_no_content : Response :=
  let code := status.HTTP_204_NO_CONTENT in
  Response_init None code.

Definition response_conflict (message success : option value)
  : outcome HTTPException value :=
  let message := arg (VStr "Conflict") message in
  let success := arg (VBool false) success in
  let code := status.HTTP_409_CONFLICT in
  let data := VDict [("message", message); ("success", VBool false)] in
  Raise (mkHTTPException code data).

Definition response_bad_request (message success data paginator : option value)
  : outcome HTTPException value :=
  let message := arg (VStr "Bad Request") message in
  let success := arg (VBool false) success in
  let data := arg (VDict []) data in
  let paginator := arg (VDict []) paginator in
  let code := status.HTTP_400_BAD_REQUEST in
  let data :=
    VDict [("message", message); ("success", success);
           ("data", data); ("paginator", paginator)] in
  Raise (mkHTTPException code data).

Definition response_too_many_active_sessions (message : option value)
  : outcome HTTPException value :=
  let message := arg (VStr "Multiple Sessions are active") message in
  let code := status.HTTP_400_BAD_REQUEST in
  let data := VDict [("message", message); ("success", VBool false)] in
  Raise (mkHTTPException code data).

Definition response_unauthenticate (message success data paginator : option value)
  : outcome HTTPException value :=
  let message := arg (VStr "Unauthenticate") message in
  let success := arg (VBool false) success in
  let data := arg (VDict []) data in
  let paginator := arg (VDict []) paginator in
  let code := status.HTTP_401_UNAUTHORIZED in
  let data :=
    VDict [("message", message); ("success", success);
           ("data", data); ("paginator", paginator)] in
  Raise (mkHTTPException code data).

Definition response_not_found (message success data paginator : option value)
  : outcome HTTPException value :=
  let message := arg (VStr "Not Found") message in
  let success := arg (VBool false) success in
  let data := arg (VDict []) data in
  let paginator := arg (VDict []) paginator in
  let code := status.HTTP_404_NOT_FOUND in
  let data :=
    VDict [("message", message); ("success", success);
           ("data", data); ("paginator", paginator)] in
  Raise (mkHTTPException code data).

Definition response_sesion_not_available (message : option value)
  : outcome HTTPException value :=
  let message := arg (VStr "Session not available") message in
  let code := status.HTTP_404_NOT_FOUND in
  let data := VDict [("message", message); ("success", VBool false)] in
  Raise (mkHTTPException code data).

Definition response_internal_server_error
  (message success data paginator : option value)
  : outcome HTTPException value :=
  let message := arg (VStr "Internal server error") message in
  let success := arg (VBool false) success in
  let data := arg (VDict []) data in
  let paginator := arg (VDict []) paginator in
  let code := status.HTTP_500_INTERNAL_SERVER_ERROR in
  let data :=
    VDict [("message", message); ("success", success);
           ("data", data); ("paginator", paginator)] in
  Raise (mkHTTPException code data).

End response.

(** ** Exceptions, log records and the drivers' handles *)

(** The exception classes the code names or meets, each an instance of
    Python's [Exception].  pymongo's [AutoReconnect] and
    [ServerSelectionTimeoutError] derive from [ConnectionFailure];
    [ConfigurationError] does not. *)
Inductive ExcClass : Type :=
| ConnectionFailure
| AutoReconnect
| ServerSelectionTimeoutError
| ConfigurationError
| AMQPConnectionError
| AttributeError
| TypeError
| OtherException (qualname : string).   (* derived from none of the above *)

Record PyExc : Type := mkExc {
  exc_class : ExcClass;
  exc_str : string              (* [str(e)], what an f-string prints *)
}.

(** [isinstance(e, pymongo.errors.ConnectionFailure)]. *)
Definition is_ConnectionFailure (e : PyExc) : bool :=
  match exc_class e with
  | ConnectionFailure | AutoReconnect | ServerSelectionTimeoutError => true
  | _ => false
  end.

(** [isinstance(e, Exception)]: every [PyExc] is one. *)
Definition is_Exception (e : PyExc) : bool := true.

Module logging.

Inductive Level : Type := INFO | WARNING | ERROR.

(** One call on a logger; [exc_info] is set by [logger.exception]. *)
Record LogRecord : Type := mkLog {
  name : string;
  levelname : Level;
  msg : string;
  exc_info : option PyExc
}.

End logging.

Import logging.

Inductive MongoClient : Type := MongoClientAt (uri : string) (id : nat).

(** [client[name]]: a database scope, which keeps its client. *)
Record Database : Type := mkDatabase {
  client : MongoClient;
  db_name : string
}.

Inductive Credentials : Type := PlainCredentials (username password : value).

Inductive Parameters : Type :=
  ConnectionParameters (host port : value) (virtual_host : string)
                       (credentials : Credentials).

Inductive Connection : Type := BlockingConnection (id : nat).

Inductive Channel : Type := BlockingChannel (conn : Connection) (number : nat).

(** Calls that reach a driver. *)
Inductive Call : Type :=
| Call_MongoClient (uri : string)
| Call_PlainCredentials
| Call_ConnectionParameters
| Call_BlockingConnection
| Call_channel (c : Connection)
| Call_MongoClient_close (c : MongoClient)
| Call_Connection_close (c : Connection).

Inductive Event : Type :=
| Logged (r : LogRecord)
| Called (c : Call).

(** What is outside the program: the broker constants of
    [resources/broker_constants.py] and the behaviour of the pymongo and
    pika calls, each of which returns or raises. *)
Record Env : Type := mkEnv {
  BROKER_IP : value;
  BROKER_PORT : value;
  BROKER_USERNAME : value;
  BROKER_PASSWORD : value;
  pymongo_MongoClient : string -> outcome PyExc MongoClient;
  pika_PlainCredentials : value -> value -> outcome PyExc Credentials;
  pika_ConnectionParameters :
    value -> value -> string -> Credentials -> outcome PyExc Parameters;
  pika_BlockingConnection : Parameters -> outcome PyExc Connection;
  Connection_channel : Connection -> outcome PyExc Channel;
  MongoClient_close : MongoClient -> outcome PyExc unit;
  Connection_close : Connection -> outcome PyExc unit
}.

(** ** resources/objects.py *)

Module objects.

(** The dataclass: six [any]-typed attributes, each [None] by default. *)
Record AppResources : Type := mkAppResources {
  database : option Database;
  channel : option Channel;
  connection : option Connection;
  paho : option value;
  celery_broker : option value;
  celery_backend : option value
}.

(** [cls()]. *)
Definition AppResources_new : AppResources :=
  mkAppResources None None None None None None.

(** The module attribute [app_resources]: bound to the class itself when
    the module is loaded, to an instance once startup has run. *)
Inductive Binding : Type :=
| TheClass
| Instance (r : AppResources).

(** The store: the object held by the local variable [resources] of
    [initialize], the module attribute, and everything logged or called so
    far, oldest first. *)
Record State : Type := mkState {
  resources : AppResources;
  app_resources : Binding;
  trace : list Event
}.

Definition M (A : Type) : Type := State -> outcome PyExc A * State.

Definition ret {A} (a : A) : M A := fun s => (Return a, s).

Definition bind {A B} (m : M A) (k : A -> M B) : M B :=
  fun s =>
    match m s with
    | (Return a, s') => k a s'
    | (Raise e, s') => (Raise e, s')
    end.

Definition raise {A} (e : PyExc) : M A := fun s => (Raise e, s).

(** [try: body  except <class> as e: handler e]: an exception the clause
    does not match goes on. *)
Definition try_except {A} (body : M A) (matches : PyExc -> bool)
  (handler : PyExc -> M A) : M A :=
  fun s =>
    match body s with
    | (Return a, s') => (Return a, s')
    | (Raise e, s') => if matches e then handler e s' else (Raise e, s')
    end.

Definition emit (ev : Event) : M unit :=
  fun s => (Return tt, mkState (resources s) (app_resources s) (trace s ++ [ev])).

(** A driver call: recorded, then its outcome. *)
Definition call {A} (c : Call) (o : outcome PyExc A) : M A :=
  fun s =>
    (o, mkState (resources s) (app_resources s) (trace s ++ [Called c])).

Definition get_resources : M AppResources := fun s => (Return (resources s), s).

Definition put_resources (r : AppResources) : M unit :=
  fun s => (Return tt, mkState r (app_resources s) (trace s)).

Definition set_app_resources (b : Binding) : M unit :=
  fun s => (Return tt, mkState (resources s) b (trace s)).

Definition get_app_resources : M Binding :=
  fun s => (Return (app_resources s), s).

Declare Scope py_scope.
Delimit Scope py_scope with py.
Notation "x <- m ;; k" := (bind m (fun x => k))
  (at level 61, m at next level, right associativity) : py_scope.
Notation "m ;; k" := (bind m (fun _ => k))
  (at level 61, right associativity) : py_scope.
Open Scope py_scope.

(** [logging.getLogger(name).<level>(m)]. *)
Definition log (name : string) (lvl : Level) (m : string)
  (exc : option PyExc) : M unit :=
  emit (Logged (mkLog name lvl m exc)).

Definition logger : string := "Objects".

Definition logger_info (m : string) : M unit := log logger INFO m None.
Definition logger_warning (m : string) : M unit := log logger WARNING m None.
Definition logger_error (m : string) : M unit := log logger ERROR m None.

(** [resources.<attr> = v]. *)
Definition set_database (v : option Database) : M unit :=
  r <- get_resources ;;
  put_resources (mkAppResources v (channel r) (connection r)
                                (paho r) (celery_broker r) (celery_backend r)).
Definition set_connection (v : option Connection) : M unit :=
  r <- get_resources ;;
  put_resources (mkAppResources (database r) (channel r) v
                                (paho r) (celery_broker r) (celery_backend r)).
Definition set_channel (v : option Channel) : M unit :=
  r <- get_resources ;;
  put_resources (mkAppResources (database r) v (connection r)
                                (paho r) (celery_broker r) (celery_backend r)).

(** [None.<attr>]. *)
Definition NoneType_has_no_attribute (attr : string) : PyExc :=
  mkExc AttributeError ("'NoneType' object has no attribute '" ++ attr ++ "'").

Section WithEnv.

Variable env : Env.

Definition initialize : M AppResources :=
  put_resources AppResources_new ;;
  (* MongoDB setup *)
  try_except
    (c <- call (Call_MongoClient "mongodb://localhost:27017/")
               (pymongo_MongoClient env "mongodb://localhost:27017/") ;;
     set_database (Some (mkDatabase c "hotel_users")) ;;
     logger_info "MongoDB Connected!")
    is_ConnectionFailure
    (fun e => logger_error ("MongoDB Connection Failed: " ++ exc_str e)) ;;
  (* RabbitMQ setup *)
  try_except
    (credentials <- call Call_PlainCredentials
        (pika_PlainCredentials env (BROKER_USERNAME env) (BROKER_PASSWORD env)) ;;
     parameters <- call Call_ConnectionParameters
        (pika_ConnectionParameters env (BROKER_IP env) (BROKER_PORT env) "/"
                                   credentials) ;;
     c <- call Call_BlockingConnection (pika_BlockingConnection env parameters) ;;
     set_connection (Some c) ;;
     r <- get_resources ;;
     ch <- match connection r with
           | Some c' => call (Call_channel c') (Connection_channel env c')
           | None => raise (NoneType_has_no_attribute "channel")
           end ;;
     set_channel (Some ch) ;;
     logger_info "RabbitMQ Connected!")
    is_Exception
    (fun e => logger_error ("RabbitMQ Connection Failed: " ++ exc_str e)) ;;
  get_resources.

Definition destroy (self : AppResources) : M unit :=
  (* Closing MongoDB connection *)
  match database self with
  | Some db => call (Call_MongoClient_close (client db))
                    (MongoClient_close env (client db))
  | None => raise (NoneType_has_no_attribute "client")
  end ;;
  logger_info "MongoDB Connection Closed!" ;;
  (* Closing RabbitMQ connection if it exists *)
  match connection self with
  | Some c =>
      call (Call_Connection_close c) (Connection_close env c) ;;
      logger_info "RabbitMQ Connection Closed!"
  | None =>
      logger_warning "RabbitMQ Connection object is None, skipping closing."
  end.

End WithEnv.

End objects.

(** ** main.py *)

Module main.

Import objects.

Definition logger : string := "Main Logger".

Definition logger_info (m : string) : M unit := log logger INFO m None.
Definition logger_warning (m : string) : M unit := log logger WARNING m None.
(** [logger.exception(m)] inside a handler: an ERROR record that carries the
    exception being handled. *)
Definition logger_exception (m : string) (e : PyExc) : M unit :=
  log logger ERROR m (Some e).

(** A path operation of the application: the decorated function runs in the
    same store as the rest of the program. *)
Record Route : Type := mkRoute {
  route_path : string;
  route_methods : list string;
  include_in_schema : bool;
  route_status_code : Z;
  endpoint : M value
}.

Record FastAPI : Type := mkFastAPI {
  title : string;
  description : string;
  docs_url : string;
  redoc_url : string;
  openapi_url : string;
  routes : list Route
}.

(** [@app.get(path, include_in_schema=...)]: status 200 unless given. *)
Definition app_get (path : string) (in_schema : bool) (f : M value) : Route :=
  mkRoute path ["GET"] in_schema status.HTTP_200_OK f.

(** Return the root of the application. *)
Definition root : M value :=
  ret (VDict [("App", VStr "Hotal management API");
              ("version", VStr "1.0");
              ("status", VStr "healthy")]).

Definition _get_app : FastAPI :=
  mkFastAPI "UpSwing Hotel Management System" "FastAPI, MQTT, MongoDB"
            "/docs" "/redoc" "/openapi.json"
            [app_get "/" false root].

(** [JSONResponse(content, status_code)]. *)
Definition JSONResponse (content : value) (code : Z) : Response :=
  mkResponse code (json.dumps_compact content).

(** The framework serving one request: the first route with this path and
    method runs, and what it returns is the JSON body; no route is a 404. *)
Definition serve (app : FastAPI) (method path : string) : M Response :=
  match find (fun r => String.eqb (route_path r) path
                       && existsb (String.eqb method) (route_methods r))
             (routes app) with
  | Some r => v <- endpoint r ;; ret (JSONResponse v (route_status_code r))
  | None => ret (JSONResponse (VDict [("detail", VStr "Not Found")])
                              status.HTTP_404_NOT_FOUND)
  end.

(** What the generator is resumed with at its [yield]. *)
Inductive Resumption : Type :=
| Resumed
| CancelledError
| Thrown (e : PyExc).

Section WithEnv.

Variable env : Env.

(** [lifespan] up to its [yield]. *)
Definition startup : M unit :=
  try_except
    (r <- initialize env ;; set_app_resources (Instance r))
    is_Exception
    (fun exception =>
       logger_exception ("Error occurred while initializing the objects: "
                         ++ exc_str exception) exception ;;
       raise exception) ;;
  logger_info "Hotal management Application started successfully.".

(** [lifespan] from its [yield] on: [CancelledError] is passed over, the
    [finally] block runs in every case, and another exception thrown in
    goes on once the block is through. *)
Definition shutdown (y : Resumption) : M unit :=
  b <- get_app_resources ;;
  match b with
  | Instance r => destroy env r
  | TheClass =>
      raise (mkExc TypeError
        "AppResources.destroy() missing 1 required positional argument: 'self'")
  end ;;
  logger_warning "Hotal management Application shutting down." ;;
  match y with
  | Thrown e => raise e
  | Resumed | CancelledError => ret tt
  end.

(** Run the lifespan event. *)
Definition lifespan (y : Resumption) : M unit :=
  startup ;; shutdown y.

End WithEnv.

End main.

(** ** Vocabulary of the properties *)

Module props.

Import objects main.

(** The four fields of the standard envelope, and the two of the short
    payload, in the order the helpers write them. *)
Definition standard_fields : list string :=
  ["message"; "success"; "data"; "paginator"].
Definition short_fields : list string := ["message"; "success"].

(** The call raises an [HTTPException] with this status code whose detail
    is a dict of exactly these fields, [success] being [False]. *)
Definition raises_with (o : outcome HTTPException value) (code : Z)
  (fields : list string) : Prop :=
  exists e, o = Raise e /\
            exc_status_code e = code /\
            dict_keys (exc_detail e) = Some fields /\
            dict_get "success" (exc_detail e) = Some (VBool false).

(** The [success] entry of the payload a helper raised. *)
Definition success_of (o : outcome HTTPException value) : option value :=
  match o with
  | Raise e => dict_get "success" (exc_detail e)
  | Return _ => None
  end.

(** The database block of [initialize] lets control reach the broker
    block: the client call returns, or raises a [ConnectionFailure]. *)
Definition database_block_passes (env : Env) : Prop :=
  match pymongo_MongoClient env "mongodb://localhost:27017/" with
  | Return _ => True
  | Raise e => is_ConnectionFailure e = true
  end.

(** Opening the broker connection: credentials, parameters, connection. *)
Definition broker_connect (env : Env) : outcome PyExc Connection :=
  match pika_PlainCredentials env (BROKER_USERNAME env) (BROKER_PASSWORD env) with
  | Raise e => Raise e
  | Return cr =>
      match pika_ConnectionParameters env (BROKER_IP env) (BROKER_PORT env)
                                      "/" cr with
      | Raise e => Raise e
      | Return p => pika_BlockingConnection env p
      end
  end.

(** The first statement of [destroy], [self.database.client.close()]. *)
Definition database_step (env : Env) (self : AppResources)
  : outcome PyExc unit :=
  match database self with
  | None => Raise (NoneType_has_no_attribute "client")
  | Some db => MongoClient_close env (client db)
  end.

Definition objects_log (lvl : Level) (m : string) : Event :=
  Logged (mkLog "Objects" lvl m None).
Definition main_log (lvl : Level) (m : string) (exc : option PyExc) : Event :=
  Logged (mkLog "Main Logger" lvl m exc).

(** *** Sample environments *)

Definition make_env (mongo : outcome PyExc MongoClient)
  (connect : outcome PyExc Connection)
  (open_channel : outcome PyExc Channel) : Env :=
  {| BROKER_IP := VStr "localhost";
     BROKER_PORT := VInt 5672;
     BROKER_USERNAME := VStr "guest";
     BROKER_PASSWORD := VStr "guest";
     pymongo_MongoClient := fun _ => mongo;
     pika_PlainCredentials := fun u p => Return (PlainCredentials u p);
     pika_ConnectionParameters :=
       fun h p v c => Return (ConnectionParameters h p v c);
     pika_BlockingConnection := fun _ => connect;
     Connection_channel := fun _ => open_channel;
     MongoClient_close := fun _ => Return tt;
     Connection_close := fun _ => Return tt |}.

Definition a_client : MongoClient :=
  MongoClientAt "mongodb://localhost:27017/" 1.
Definition a_connection : Connection := BlockingConnection 1.
Definition a_channel : Channel := BlockingChannel a_connection 1.

Definition timed_out : PyExc :=
  mkExc ServerSelectionTimeoutError "localhost:27017: Connection refused".
Definition unreachable : PyExc := mkExc AMQPConnectionError "".
Definition bad_option : PyExc :=
  mkExc ConfigurationError "Unknown option".
Definition channel_closed : PyExc :=
  mkExc (OtherException "pika.exceptions.ChannelClosedByBroker")
        "(403, 'ACCESS_REFUSED')".

Definition env_up : Env :=
  make_env (Return a_client) (Return a_connection) (Return a_channel).
Definition env_database_down : Env :=
  make_env (Raise timed_out) (Return a_connection) (Return a_channel).
Definition env_broker_down : Env :=
  make_env (Return a_client) (Raise unreachable) (Return a_channel).
Definition env_all_down : Env :=
  make_env (Raise timed_out) (Raise unreachable) (Return a_channel).
Definition env_misconfigured : Env :=
  make_env (Raise bad_option) (Return a_connection) (Return a_channel).
Definition env_no_channel : Env :=
  make_env (Return a_client) (Return a_connection) (Raise channel_closed).

(** The store when the program starts: [app_resources] is the class. *)
Definition initial_state : State := mkState AppResources_new TheClass [].

(** A container with a database and no broker connection. *)
Definition database_only : AppResources :=
  mkAppResources (Some (mkDatabase a_client "hotel_users"))
                 None None None None None.

End props.

(** ** Python's [repr] and [str] on values *)

Module builtins.

#[local] Open Scope char_scope.
#[local] Open Scope list_scope.

Abbreviation dquote := (Ascii false true false false false true false false)
  (only parsing).

(** [str.isprintable] on a code point below 256: the controls, the
    no-break space and the soft hyphen are not. *)
Definition printable (n : nat) : bool :=
  ((32 <=? n) && (n <? 127) || (160 <? n) && negb (n =? 173))%nat.

Definition repr_char (quote c : ascii) : list ascii :=
  let n := nat_of_ascii c in
  if Ascii.eqb c quote || Ascii.eqb c "\" then ["\"; c]
  else if (n =? 9)%nat then ["\"; "t"]
  else if (n =? 10)%nat then ["\"; "n"]
  else if (n =? 13)%nat then ["\"; "r"]
  else if printable n then [c]
  else ["\"; "x"; json.hex_digit (n / 16)%nat; json.hex_digit (n mod 16)%nat].

(** [repr] of a [str]: in apostrophes, unless it holds an apostrophe and
    no double quote. *)
Definition repr_str (s : string) : list ascii :=
  let cs := list_ascii_of_string s in
  let has := fun c => existsb (Ascii.eqb c) cs in
  let quote := if has "'" && negb (has dquote) then dquote else "'" in
  quote :: flat_map (repr_char quote) cs ++ [quote].

Fixpoint repr (v : value) : list ascii :=
  match v with
  | VNone => list_ascii_of_string "None"
  | VBool true => list_ascii_of_string "True"
  | VBool false => list_ascii_of_string "False"
  | VInt z => json.int_repr z
  | VStr s => repr_str s
  | VList xs =>
      "[" ::
      (fix elements (l : list value) : list ascii :=
         match l with
         | [] => []
         | x :: rest =>
             repr x ++
             match rest with
             | [] => []
             | _ :: _ => [","; " "] ++ elements rest
             end
         end) xs ++ ["]"]
  | VDict items =>
      "{" ::
      (fix members (l : list (string * value)) : list ascii :=
         match l with
         | [] => []
         | (k, x) :: rest =>
             repr_str k ++ [":"; " "] ++ repr x ++
             match rest with
             | [] => []
             | _ :: _ => [","; " "] ++ members rest
             end
         end) items ++ ["}"]
  end.

(** [str(v)], what an f-string writes for [v]. *)
Definition str (v : value) : string :=
  match v with
  | VStr s => s
  | _ => string_of_list_ascii (repr v)
  end.

(** [v in l] for a list [l] of [str]: only an equal [str] is in it. *)
Definition in_strings (v : value) (l : list string) : bool :=
  match v with
  | VStr s => existsb (String.eqb s) l
  | _ => false
  end.

End builtins.

(** ** utilities/response.py: the documented responses and the
    notification model's validator *)

Module response_schema.

Definition NOTIFICATION_TYPE : list string := ["success"; "error"; "warning"].

Definition STANDARD_RESPONSES : value :=
  VDict
    [("201",
      VDict
        [("description", VStr "Requested resource created successfully");
         ("content",
          VDict
            [("application/json",
              VDict
                [("example",
                  VDict [("message", VStr "Resource created");
                         ("success", VBool true);
                         ("data", VDict []);
                         ("paginator", VDict [])])])])]);
     ("204",
      VDict
        [("description", VStr "Requested resource deleted successfully");
         ("content",
          VDict
            [("application/json",
              VDict
                [("example",
                  VDict [("message", VStr "Resource deleted");
                         ("success", VBool true);
                         ("data", VDict []);
                         ("paginator", VDict [])])])])]);
     ("400",
      VDict
        [("description", VStr "Bad request");
         ("content",
          VDict
            [("application/json",
              VDict
                [("example",
                  VDict [("message", VStr "Bad request");
                         ("success", VBool false);
                         ("data", VDict []);
                         ("paginator", VDict [])])])])]);
     ("404",
      VDict
        [("description", VStr "Resource not found for your request.");
         ("content",
          VDict
            [("application/json",
              VDict
                [("example",
                  VDict [("message", VStr "Resource not found");
                         ("success", VBool false);
                         ("data", VDict []);
                         ("paginator", VDict [])])])])]);
     ("500",
      VDict
        [("description",
          VStr "Internal server Error occurred while working on API request");
         ("content",
          VDict
            [("application/json",
              VDict
                [("example",
                  VDict [("message", VStr "Internal server error");
                         ("success", VBool false);
                         ("data", VDict []);
                         ("paginator", VDict [])])])])])].

Definition KeyError (key : string) : PyExc :=
  mkExc (OtherException "KeyError")
        (string_of_list_ascii (builtins.repr_str key)).

Definition ValueError (message : string) : PyExc :=
  mkExc (OtherException "ValueError") message.

(** The root validator of [StandardNotificationResponseModel], on the
    dict of the fields validated so far. *)
Definition validate_fields (values : list (string * value))
  : outcome PyExc (list (string * value)) :=
  match assoc_get "n_type" values with
  | None => Raise (KeyError "n_type")
  | Some n_type =>
      if negb (builtins.in_strings n_type NOTIFICATION_TYPE) then
        Raise (ValueError ("Invalid n_type provided: " ++ builtins.str n_type))
      else Return values
  end.

(** The defaults the model declares for the fields other than [message]. *)
Definition notification_defaults : list (string * value) :=
  [("header", VStr "Eaglai-hub");
   ("n_type", VStr "error");
   ("description", VStr "Default description")].

End response_schema.

(** ** Vocabulary of the further properties *)

Module more.

Import objects main props.

(** [s] with the events [evs] after those it has. *)
Definition after (s : State) (evs : list Event) : State :=
  mkState (resources s) (app_resources s) (trace s ++ evs).

(** The container with the three handles [initialize] can set. *)
Definition container (db : option Database) (ch : option Channel)
  (conn : option Connection) : AppResources :=
  mkAppResources db ch conn None None None.

(** Every driver call of [initialize] returns. *)
Definition all_connect (env : Env) (c : MongoClient) (conn : Connection)
  (ch : Channel) : Prop :=
  pymongo_MongoClient env "mongodb://localhost:27017/" = Return c /\
  broker_connect env = Return conn /\
  Connection_channel env conn = Return ch.

Definition is_close (c : Call) : bool :=
  match c with
  | Call_MongoClient_close _ | Call_Connection_close _ => true
  | _ => false
  end.

(** The driver calls among some events, in order. *)
Fixpoint calls_of (evs : list Event) : list Call :=
  match evs with
  | [] => []
  | Called c :: rest => c :: calls_of rest
  | Logged _ :: rest => calls_of rest
  end.

(** [STANDARD_RESPONSES[code]["content"]["application/json"]["example"]]. *)
Definition documented_example (code : string) : option value :=
  match dict_get code response_schema.STANDARD_RESPONSES with
  | Some r =>
      match dict_get "content" r with
      | Some c =>
          match dict_get "application/json" c with
          | Some j => dict_get "example" j
          | None => None
          end
      | None => None
      end
  | None => None
  end.

(** The envelope with this message and flag, nothing else given. *)
Definition plain_envelope (message : string) (success : bool) : value :=
  response.response_ok (Some (VStr message)) (Some (VBool success)) None None.

(** A documented code is documented by a plain envelope, a success for
    the codes in 2xx and a failure for the others. *)
Definition documents_plain_envelope (code : string) : Prop :=
  exists message,
    documented_example code
    = Some (plain_envelope message (String.prefix "2" code)).

(** What a helper hands on: the value returned, or the detail raised. *)
Definition payload (o : outcome HTTPException value) : value :=
  match o with
  | Return v => v
  | Raise e => exc_detail e
  end.

(** The payloads of the helpers that take these arguments. *)
Definition payloads (message success data paginator : option value)
  : list value :=
  [response.response_ok message success data paginator;
   response.response_created message success data paginator;
   payload (response.response_conflict message success);
   payload (response.response_bad_request message success data paginator);
   payload (response.response_too_many_active_sessions message);
   payload (response.response_unauthenticate message success data paginator);
   payload (response.response_not_found message success data paginator);
   payload (response.response_sesion_not_available message);
   payload (response.response_internal_server_error
              message success data paginator)].

(** The detail of what an error helper raised. *)
Definition detail_of (o : outcome HTTPException value) : option value :=
  match o with
  | Raise e => Some (exc_detail e)
  | Return _ => None
  end.

(** A driver whose calls all return, but for what closing gives. *)
Definition env_closing (close_db close_broker : outcome PyExc unit) : Env :=
  {| BROKER_IP := VStr "localhost";
     BROKER_PORT := VInt 5672;
     BROKER_USERNAME := VStr "guest";
     BROKER_PASSWORD := VStr "guest";
     pymongo_MongoClient := fun _ => Return a_client;
     pika_PlainCredentials := fun u p => Return (PlainCredentials u p);
     pika_ConnectionParameters :=
       fun h p v c => Return (ConnectionParameters h p v c);
     pika_BlockingConnection := fun _ => Return a_connection;
     Connection_channel := fun _ => Return a_channel;
     MongoClient_close := fun _ => close_db;
     Connection_close := fun _ => close_broker |}.

Definition close_failed : PyExc :=
  mkExc (OtherException "pika.exceptions.ConnectionWrongStateError")
        "BlockingConnection.close() called on closed connection.".
Definition not_primary : PyExc :=
  mkExc AutoReconnect "connection closed".

(** The store once startup is through: the container is bound to the
    module attribute and the start is logged. *)
Definition serving (s1 : State) (r : AppResources) : State :=
  mkState (resources s1) (Instance r)
          (trace s1 ++
           [main_log INFO "Hotal management Application started successfully."
                     None]).

Definition shutting_down : Event :=
  main_log WARNING "Hotal management Application shutting down." None.

(** The container [initialize] makes when everything connects. *)
Definition connected : AppResources :=
  container (Some (mkDatabase a_client "hotel_users"))
            (Some a_channel) (Some a_connection).

End more.

(** ** The database server behind the client

    A [MongoClient] of the driver in use does not wait for a server: the
    constructor returns a client and connects in the background, and it is
    the first operation on the client that raises
    [ServerSelectionTimeoutError] when no server answers.  [initialize]
    makes the client and performs no operation on it. *)

Module deployment.

Import props.





End deployment.

(** ** The bounds within which CPython's [json] writes and reads a value

    An integer of more than 4300 digits is refused when it is converted
    to or from text, and nesting is limited by the recursion limit, which
    is far above 100. *)

Module limits.

Fixpoint depth (v : value) : nat :=
  match v with
  | VList xs =>
      S ((fix deepest (l : list value) : nat :=
            match l with
            | [] => O
            | x :: rest => Nat.max (depth x) (deepest rest)
            end) xs)
  | VDict items =>
      S ((fix deepest (l : list (string * value)) : nat :=
            match l with
            | [] => O
            | (_, x) :: rest => Nat.max (depth x) (deepest rest)
            end) items)
  | _ => O
  end.

(** Every integer in [v] is below [bound] in absolute value. *)
Fixpoint ints_below (bound : Z) (v : value) : Prop :=
  match v with
  | VInt z => (Z.abs z < bound)%Z
  | VList xs =>
      (fix all (l : list value) : Prop :=
         match l with
         | [] => True
         | x :: rest => ints_below bound x /\ all rest
         end) xs
  | VDict items =>
      (fix all (l : list (string * value)) : Prop :=
         match l with
         | [] => True
         | (_, x) :: rest => ints_below bound x /\ all rest
         end) items
  | _ => True
  end.

Definition max_str_digits : Z := 4300.
Definition max_depth : nat := 100.

Definition json_safe (v : value) : Prop :=
  well_formed v /\
  (depth v <= max_depth)%nat /\
  ints_below (10 ^ max_str_digits) v.

Definition json_safe_arg (supplied : option value) : Prop :=
  match supplied with
  | Some v => json_safe v
  | None => True
  end.

End limits.

(** ** The response helpers *)

Module response_facts.

Import response props.

(** C1, as stated, fails at [response_conflict]: called with its defaults
    it raises status 409, but the payload has two fields, not four. *)
Lemma conflict_payload_is_not_the_standard_envelope :
  ~ raises_with (response_conflict None None) 409 standard_fields.
Proof.
  intros (e & Hraise & _ & Hkeys & _).
  injection Hraise as <-.
  discriminate Hkeys.
Qed.

(** C1, amended: with default arguments the 400, 401, 404 and 500 helpers
    raise their status code with a payload of exactly the four fields
    message, success, data, paginator and success false; the 409 helper
    and the two session variants (400 and 404) raise their status code with
    exactly message and success, success false. *)
Theorem error_helpers_default_payload :
  raises_with (response_bad_request None None None None) 400 standard_fields /\
  raises_with (response_unauthenticate None None None None) 401 standard_fields /\
  raises_with (response_not_found None None None None) 404 standard_fields /\
  raises_with (response_internal_server_error None None None None) 500
              standard_fields /\
  raises_with (response_conflict None None) 409 short_fields /\
  raises_with (response_too_many_active_sessions None) 400 short_fields /\
  raises_with (response_sesion_not_available None) 404 short_fields.
Proof.
  repeat split; eexists; (split; [reflexivity |]); repeat split; reflexivity.
Qed.

(** C5, as stated, fails at [response_bad_request]: a caller passing
    [success=True] gets a payload whose success flag is true. *)
Lemma bad_request_success_is_the_callers :
  success_of (response_bad_request None (Some (VBool true)) None None)
  <> Some (VBool false).
Proof. cbn. discriminate. Qed.

(** C5, amended: [response_conflict] ignores its success argument and the
    two session variants take none, so their payload's success flag is
    false whatever the caller supplies; the 400, 401, 404 and 500 helpers
    write the success value the caller gives into the payload as it is,
    and write false when the argument is left out. *)
Theorem error_helpers_success_flag
  (message success data paginator : option value) (given : value) :
  (success_of (response_conflict message success) = Some (VBool false) /\
   success_of (response_too_many_active_sessions message)
   = Some (VBool false) /\
   success_of (response_sesion_not_available message)
   = Some (VBool false)) /\
  (success_of (response_bad_request message (Some given) data paginator)
   = Some given /\
   success_of (response_unauthenticate message (Some given) data paginator)
   = Some given /\
   success_of (response_not_found message (Some given) data paginator)
   = Some given /\
   success_of (response_internal_server_error message (Some given)
                                              data paginator)
   = Some given) /\
  (success_of (response_bad_request message None data paginator)
   = Some (VBool false) /\
   success_of (response_unauthenticate message None data paginator)
   = Some (VBool false) /\
   success_of (response_not_found message None data paginator)
   = Some (VBool false) /\
   success_of (response_internal_server_error message None data paginator)
   = Some (VBool false)).
Proof. repeat split. Qed.

(** C8: [response_ok] and [response_created] return the mapping itself,
    whose four entries are the arguments given; an omitted argument stands
    for the default: message Ok or Resource created, success true, data
    and paginator the empty mapping. *)
Theorem success_helpers_return_the_envelope :
  (forall message success data paginator : value,
      response_ok (Some message) (Some success) (Some data) (Some paginator)
      = VDict [("message", message); ("success", success);
               ("data", data); ("paginator", paginator)] /\
      response_created (Some message) (Some success) (Some data) (Some paginator)
      = VDict [("message", message); ("success", success);
               ("data", data); ("paginator", paginator)]) /\
  response_ok None None None None
  = VDict [("message", VStr "Ok"); ("success", VBool true);
           ("data", VDict []); ("paginator", VDict [])] /\
  response_created None None None None
  = VDict [("message", VStr "Resource created"); ("success", VBool true);
           ("data", VDict []); ("paginator", VDict [])] /\
  (forall message success data paginator : option value,
      dict_keys (response_ok message success data paginator)
      = Some standard_fields /\
      dict_get "message" (response_ok message success data paginator)
      = Some (arg (VStr "Ok") message) /\
      dict_get "success" (response_ok message success data paginator)
      = Some (arg (VBool true) success) /\
      dict_get "data" (response_ok message success data paginator)
      = Some (arg (VDict []) data) /\
      dict_get "paginator" (response_ok message success data paginator)
      = Some (arg (VDict []) paginator)) /\
  (forall message success data paginator : option value,
      dict_keys (response_created message success data paginator)
      = Some standard_fields /\
      dict_get "message" (response_created message success data paginator)
      = Some (arg (VStr "Resource created") message) /\
      dict_get "success" (response_created message success data paginator)
      = Some (arg (VBool true) success) /\
      dict_get "data" (response_created message success data paginator)
      = Some (arg (VDict []) data) /\
      dict_get "paginator" (response_created message success data paginator)
      = Some (arg (VDict []) paginator)).
Proof. repeat split. Qed.

(** C10: [response_no_content] is a response with status 204 and an empty
    body. *)
Theorem no_content_is_204_without_body :
  status_code response_no_content = 204%Z /\
  body response_no_content = EmptyString.
Proof. split; reflexivity. Qed.

End response_facts.

(** ** JSON *)

Module json_facts.

Import json response props.

#[local] Open Scope char_scope.
#[local] Open Scope list_scope.

Lemma hex_value_digit (k : nat) :
  (k < 16)%nat -> hex_value (hex_digit k) = Some k.
Proof.
  intros H. do 16 (destruct k as [| k]; [reflexivity |]). lia.
Qed.

Lemma ascii_eqb_nat (c d : ascii) :
  Ascii.eqb c d = Nat.eqb (nat_of_ascii c) (nat_of_ascii d).
Proof.
  destruct (Ascii.eqb_spec c d) as [-> | Hne].
  - symmetry. apply Nat.eqb_refl.
  - symmetry. apply Nat.eqb_neq. intros H. apply Hne.
    rewrite <- (ascii_nat_embedding c), <- (ascii_nat_embedding d), H.
    reflexivity.
Qed.

Lemma scan_escape_char (ea : bool) (c : ascii) (tl : list ascii) :
  scan_string (escape_char ea c ++ tl)
  = match scan_string tl with
    | Some (s, r) => Some (c :: s, r)
    | None => None
    end.
Proof.
  unfold escape_char.
  pose proof (nat_ascii_bounded c) as Hb.
  pose proof (ascii_nat_embedding c) as Hc.
  rewrite !ascii_eqb_nat.
  change (nat_of_ascii dquote) with 34%nat.
  change (nat_of_ascii "\") with 92%nat.
  set (n := nat_of_ascii c) in *.
  destruct (Nat.eqb_spec n 34) as [E | N1].
  { cbn. rewrite <- Hc, E. reflexivity. }
  destruct (Nat.eqb_spec n 92) as [E | N2].
  { cbn. rewrite <- Hc, E. reflexivity. }
  destruct (Nat.eqb_spec n 10) as [E | N3].
  { cbn. rewrite <- Hc, E. reflexivity. }
  destruct (Nat.eqb_spec n 13) as [E | N4].
  { cbn. rewrite <- Hc, E. reflexivity. }
  destruct (Nat.eqb_spec n 9) as [E | N5].
  { cbn. rewrite <- Hc, E. reflexivity. }
  destruct (Nat.eqb_spec n 8) as [E | N6].
  { cbn. rewrite <- Hc, E. reflexivity. }
  destruct (Nat.eqb_spec n 12) as [E | N7].
  { cbn. rewrite <- Hc, E. reflexivity. }
  destruct ((n <? 32)%nat || (ea && (126 <? n)%nat)) eqn:Hout.
  - cbn [app scan_string].
    change (Ascii.eqb "\" dquote) with false.
    change (Ascii.eqb "\" "\") with true.
    change (Ascii.eqb "u" "u") with true.
    change (Ascii.eqb "0" "0") with true.
    cbn [andb].
    rewrite !hex_value_digit.
    + rewrite <- Nat.div_mod_eq, Hc. reflexivity.
    + apply Nat.mod_upper_bound. lia.
    + apply Nat.Div0.div_lt_upper_bound. lia.
  - apply orb_false_iff in Hout as [H32 _].
    cbn [app scan_string]. rewrite !ascii_eqb_nat.
    change (nat_of_ascii dquote) with 34%nat.
    change (nat_of_ascii "\") with 92%nat.
    fold n.
    destruct (Nat.eqb_spec n 34); [contradiction |].
    destruct (Nat.eqb_spec n 92); [contradiction |].
    rewrite H32. reflexivity.
Qed.

Lemma scan_string_escaped (ea : bool) (cs rest : list ascii) :
  scan_string (flat_map (escape_char ea) cs ++ dquote :: rest)
  = Some (cs, rest).
Proof.
  induction cs as [| c cs IH]; [reflexivity |].
  cbn [flat_map]. rewrite <- app_assoc, scan_escape_char, IH. reflexivity.
Qed.

Lemma is_digit_digit_char (d : Z) :
  (0 <= d < 10)%Z ->
  is_digit (digit_char d) = true /\
  Z.of_nat (nat_of_ascii (digit_char d) - 48) = d.
Proof.
  intros H. unfold is_digit, digit_char.
  rewrite nat_ascii_embedding by lia.
  split.
  - apply andb_true_iff. split; apply Nat.leb_le; lia.
  - lia.
Qed.

Lemma digits_S (f : nat) (z : Z) (acc : list ascii) :
  digits (S f) z acc
  = if (z <? 10)%Z then digit_char (z mod 10) :: acc
    else digits f (z / 10) (digit_char (z mod 10) :: acc).
Proof. reflexivity. Qed.

Lemma scan_digit_char (a d : Z) (rest : list ascii) :
  (0 <= d < 10)%Z ->
  scan_digits a (digit_char d :: rest) = scan_digits (10 * a + d) rest.
Proof.
  intros H. destruct (is_digit_digit_char d H) as [Hd Hv].
  cbn [scan_digits]. rewrite Hd, Hv. reflexivity.
Qed.

Lemma digit_char_not_zero (d : Z) :
  (0 < d < 10)%Z -> Ascii.eqb (digit_char d) "0" = false.
Proof.
  intros H. rewrite ascii_eqb_nat. unfold digit_char.
  rewrite nat_ascii_embedding by lia.
  change (nat_of_ascii "0") with 48%nat.
  apply Nat.eqb_neq. lia.
Qed.

(** The digits written for [z] start with a digit, which is no zero unless
    [z] is, and read back as [z], after whatever was read before them. *)
Lemma digits_scan (f : nat) :
  forall (z : Z) (tl : list ascii),
    (0 <= z < 10 ^ Z.of_nat (S f))%Z ->
    exists d ds k,
      digits (S f) z tl = (d :: ds) ++ tl /\
      is_digit d = true /\
      (0 < z -> Ascii.eqb d "0" = false)%Z /\
      forall a rest,
        scan_digits a ((d :: ds) ++ rest) = scan_digits (a * k + z) rest.
Proof.
  assert (Hsmall : forall z tl, (0 <= z < 10)%Z ->
            exists d ds k,
              digit_char (z mod 10) :: tl = (d :: ds) ++ tl /\
              is_digit d = true /\
              (0 < z -> Ascii.eqb d "0" = false)%Z /\
              forall a rest,
                scan_digits a ((d :: ds) ++ rest)
                = scan_digits (a * k + z) rest).
  { intros z tl Hz. rewrite Z.mod_small by lia.
    exists (digit_char z), [], 10%Z.
    split; [reflexivity |]. split; [apply is_digit_digit_char, Hz |].
    split; [intros Hpos; apply digit_char_not_zero; lia |].
    intros a rest. cbn [app]. rewrite scan_digit_char by exact Hz.
    f_equal. lia. }
  induction f as [| f IH]; intros z tl Hz; rewrite digits_S;
    destruct (Z.ltb_spec z 10) as [Hlt | Hge].
  - apply Hsmall. lia.
  - change (10 ^ Z.of_nat 1)%Z with 10%Z in Hz. lia.
  - apply Hsmall. lia.
  - assert (Hm : (0 <= z mod 10 < 10)%Z) by (apply Z.mod_pos_bound; lia).
    assert (Hq : (0 < z / 10 < 10 ^ Z.of_nat (S f))%Z).
    { split; [apply Z.div_str_pos; lia |].
      apply Z.div_lt_upper_bound; [lia |].
      replace (Z.of_nat (S (S f))) with (Z.succ (Z.of_nat (S f))) in Hz by lia.
      rewrite Z.pow_succ_r in Hz by lia. lia. }
    destruct (IH (z / 10)%Z (digit_char (z mod 10)%Z :: tl) ltac:(lia))
      as (d & ds & k & Heq & Hdig & Hnz & Hscan).
    exists d, (ds ++ [digit_char (z mod 10)%Z]), (k * 10)%Z.
    split.
    { rewrite Heq. cbn [app]. rewrite <- app_assoc. reflexivity. }
    split; [exact Hdig |].
    split; [intros _; apply Hnz; lia |].
    intros a rest.
    replace ((d :: ds ++ [digit_char (z mod 10)%Z]) ++ rest)
      with ((d :: ds) ++ digit_char (z mod 10)%Z :: rest)
      by (cbn [app]; rewrite <- app_assoc; reflexivity).
    rewrite Hscan, scan_digit_char by exact Hm.
    f_equal. pose proof (Z.div_mod z 10). lia.
Qed.

Lemma scan_digits_stop (a : Z) (rest : list ascii) :
  ends_number rest = true -> scan_digits a rest = (a, rest).
Proof.
  destruct rest as [| c r]; [reflexivity |].
  cbn [ends_number scan_digits]. intros H.
  apply negb_true_iff in H. rewrite !orb_false_iff in H.
  destruct H as [[[-> _] _] _]. reflexivity.
Qed.

Lemma log2_fuel (z : Z) :
  (0 <= z)%Z -> (z < 10 ^ Z.of_nat (S (Z.to_nat (Z.log2 z))))%Z.
Proof.
  intros H.
  assert (Hl : (0 <= Z.log2 z)%Z) by apply Z.log2_nonneg.
  replace (Z.of_nat (S (Z.to_nat (Z.log2 z)))) with (Z.succ (Z.log2 z)) by lia.
  destruct (Z.eq_dec z 0) as [-> | Hne].
  - reflexivity.
  - assert (Hpos : (0 < z)%Z) by lia.
    pose proof (Z.log2_spec z Hpos) as [_ Hlt].
    eapply Z.lt_le_trans; [exact Hlt |].
    apply Z.pow_le_mono_l. lia.
Qed.

(** A number that is not negative, written and read back. *)
Lemma scan_nat_repr (z : Z) (rest : list ascii) :
  (0 <= z)%Z -> ends_number rest = true ->
  exists d ds,
    digits (S (Z.to_nat (Z.log2 z))) z [] = d :: ds /\
    is_digit d = true /\
    scan_nat ((d :: ds) ++ rest) = Some (z, rest).
Proof.
  intros Hz Hrest.
  destruct (Z.eq_dec z 0) as [-> | Hne].
  - exists "0", []. split; [reflexivity |]. split; [reflexivity |].
    cbn [app scan_nat]. change (is_digit "0") with true.
    change (Ascii.eqb "0" "0") with true. cbn match.
    rewrite Hrest. reflexivity.
  - destruct (digits_scan (Z.to_nat (Z.log2 z)) z []
                (conj Hz (log2_fuel z Hz)))
      as (d & ds & k & Heq & Hdig & Hnz & Hscan).
    exists d, ds. rewrite Heq, app_nil_r. split; [reflexivity |].
    split; [exact Hdig |].
    unfold scan_nat. cbn [app]. rewrite Hdig, Hnz by lia.
    change (d :: ds ++ rest) with ((d :: ds) ++ rest).
    rewrite Hscan, scan_digits_stop by exact Hrest.
    rewrite Hrest. reflexivity.
Qed.

(** A digit is none of the characters the decoder tests for. *)
Lemma digit_is_not (d c : ascii) :
  is_digit d = true ->
  ((nat_of_ascii c <? 48) || (57 <? nat_of_ascii c))%nat = true ->
  Ascii.eqb d c = false.
Proof.
  unfold is_digit. intros Hd Hc. rewrite ascii_eqb_nat.
  apply andb_true_iff in Hd as [H1 H2].
  apply Nat.leb_le in H1, H2. apply Nat.eqb_neq.
  apply orb_true_iff in Hc as [Hc | Hc]; apply Nat.ltb_lt in Hc; lia.
Qed.

Lemma digit_is_not_ws (d : ascii) : is_digit d = true -> is_ws d = false.
Proof.
  unfold is_digit, is_ws. intros Hd.
  apply andb_true_iff in Hd as [H1 H2]. apply Nat.leb_le in H1, H2.
  rewrite !orb_false_iff. repeat split; apply Nat.eqb_neq; lia.
Qed.

Lemma scan_int_repr (z : Z) (rest : list ascii) :
  ends_number rest = true ->
  scan_int (int_repr z ++ rest) = Some (z, rest).
Proof.
  intros Hrest. unfold int_repr.
  destruct (Z.ltb_spec z 0) as [Hneg | Hpos].
  - destruct (scan_nat_repr (- z) rest ltac:(lia) Hrest)
      as (d & ds & Heq & _ & Hscan).
    rewrite Heq. cbn [app scan_int].
    change (Ascii.eqb "-" "-") with true. cbn match.
    change (d :: ds ++ rest) with ((d :: ds) ++ rest).
    rewrite Hscan. f_equal. f_equal. lia.
  - destruct (scan_nat_repr z rest Hpos Hrest) as (d & ds & Heq & Hdig & Hscan).
    rewrite Heq. cbn [app scan_int].
    rewrite (digit_is_not d "-" Hdig eq_refl).
    exact Hscan.
Qed.

Lemma skip_ws_app (ws cs : list ascii) :
  all_ws ws -> skip_ws (ws ++ cs) = skip_ws cs.
Proof.
  induction 1 as [| c ws Hc _ IH]; [reflexivity |].
  cbn [app skip_ws]. rewrite Hc. exact IH.
Qed.

Lemma skip_ws_head (c : ascii) (cs : list ascii) :
  is_ws c = false -> skip_ws (c :: cs) = c :: cs.
Proof. intros H. cbn [skip_ws]. rewrite H. reflexivity. Qed.

Lemma value_ind' (P : value -> Prop)
  (HNone : P VNone)
  (HBool : forall b, P (VBool b))
  (HInt : forall z, P (VInt z))
  (HStr : forall s, P (VStr s))
  (HList : forall xs, Forall P xs -> P (VList xs))
  (HDict : forall items, Forall (fun kv => P (snd kv)) items -> P (VDict items)) :
  forall v, P v.
Proof.
  fix IH 1. intros [| b | z | s | xs | items].
  - exact HNone.
  - apply HBool.
  - apply HInt.
  - apply HStr.
  - apply HList. induction xs as [| x xs IHxs]; constructor.
    + apply IH.
    + exact IHxs.
  - apply HDict. induction items as [| [k x] items IHitems]; constructor.
    + apply IH.
    + exact IHitems.
Qed.

Lemma parse_value_S (f : nat) (cs : list ascii) :
  parse_value (S f) cs
  = match skip_ws cs with
    | [] => None
    | c :: rest =>
        if Ascii.eqb c dquote then
          match scan_string rest with
          | Some (s, rest') => Some (VStr (string_of_list_ascii s), rest')
          | None => None
          end
        else if Ascii.eqb c "[" then
          match strip_prefix ["]"] (skip_ws rest) with
          | Some rest' => Some (VList [], rest')
          | None =>
              match parse_elements f rest with
              | Some (xs, rest') => Some (VList xs, rest')
              | None => None
              end
          end
        else if Ascii.eqb c "{" then
          match strip_prefix ["}"] (skip_ws rest) with
          | Some rest' => Some (VDict [], rest')
          | None =>
              match parse_members f rest with
              | Some (items, rest') =>
                    Some (VDict (dict_of_items items), rest')
              | None => None
              end
          end
        else if Ascii.eqb c "n" then literal "null" VNone (c :: rest)
        else if Ascii.eqb c "t" then literal "true" (VBool true) (c :: rest)
        else if Ascii.eqb c "f" then literal "false" (VBool false) (c :: rest)
        else
          match scan_int (c :: rest) with
          | Some (z, rest') => Some (VInt z, rest')
          | None => None
          end
    end.
Proof. reflexivity. Qed.

Lemma parse_elements_S (f : nat) (cs : list ascii) :
  parse_elements (S f) cs
  = match parse_value f cs with
    | Some (x, rest) =>
        match skip_ws rest with
        | [] => None
        | c :: rest' =>
            if Ascii.eqb c "]" then Some ([x], rest')
            else if Ascii.eqb c "," then
              match parse_elements f rest' with
              | Some (xs, rest'') => Some (x :: xs, rest'')
              | None => None
              end
            else None
        end
    | None => None
    end.
Proof. reflexivity. Qed.

Lemma parse_members_S (f : nat) (cs : list ascii) :
  parse_members (S f) cs
  = match strip_prefix [dquote] (skip_ws cs) with
    | None => None
    | Some rest =>
        match scan_string rest with
        | None => None
        | Some (k, rest1) =>
            match strip_prefix [":"] (skip_ws rest1) with
            | None => None
            | Some rest2 =>
                match parse_value f rest2 with
                | None => None
                | Some (x, rest3) =>
                    match skip_ws rest3 with
                    | [] => None
                    | c :: rest' =>
                        if Ascii.eqb c "}" then
                          Some ([(string_of_list_ascii k, x)], rest')
                        else if Ascii.eqb c "," then
                          match parse_members f rest' with
                          | Some (items, rest'') =>
                              Some ((string_of_list_ascii k, x) :: items, rest'')
                          | None => None
                          end
                        else None
                    end
                end
            end
        end
    end.
Proof. reflexivity. Qed.

Lemma well_formed_list (xs : list value) :
  well_formed (VList xs) -> Forall well_formed xs.
Proof.
  induction xs as [| x xs IH]; [constructor |].
  intros [Hx Hxs]. constructor; [exact Hx | apply IH, Hxs].
Qed.

Lemma well_formed_dict (items : list (string * value)) :
  well_formed (VDict items) ->
  NoDup (map fst items) /\ Forall (fun kv => well_formed (snd kv)) items.
Proof.
  intros [Hnd Hall]. split; [exact Hnd |]. clear Hnd.
  induction items as [| [k x] items IH]; [constructor |].
  destruct Hall as [Hx Hall]. constructor; [exact Hx | apply IH, Hall].
Qed.

(** Setting a key that is not there appends it. *)
Lemma assoc_set_fresh (k : string) (v : value) (d : list (string * value)) :
  ~ In k (map fst d) -> assoc_set k v d = d ++ [(k, v)].
Proof.
  induction d as [| [k' v'] d IH]; [reflexivity |].
  cbn [map fst In assoc_set app]. intros Hin.
  destruct (String.eqb_spec k k') as [-> | _]; [tauto |].
  rewrite IH by tauto. reflexivity.
Qed.

Lemma dict_of_items_from (items d : list (string * value)) :
  NoDup (map fst (d ++ items)) ->
  fold_left (fun d kv => assoc_set (fst kv) (snd kv) d) items d = d ++ items.
Proof.
  revert d. induction items as [| [k v] items IH]; intros d Hnd.
  - cbn. rewrite app_nil_r. reflexivity.
  - cbn [fold_left fst snd].
    rewrite assoc_set_fresh.
    + rewrite IH; rewrite <- app_assoc; [reflexivity | exact Hnd].
    + rewrite map_app in Hnd. cbn [map fst] in Hnd.
      apply NoDup_remove_2 in Hnd. rewrite in_app_iff in Hnd. tauto.
Qed.

(** A list of pairs with distinct keys is the dict made of it. *)
Lemma dict_of_items_distinct (items : list (string * value)) :
  NoDup (map fst items) -> dict_of_items items = items.
Proof.
  intros H. unfold dict_of_items. rewrite dict_of_items_from; auto.
Qed.

Section RoundTrip.

Variable ea : bool.
Variables iws kws : list ascii.
Hypothesis iws_ws : all_ws iws.
Hypothesis kws_ws : all_ws kws.

#[local] Abbreviation isep := ("," :: iws) (only parsing).
#[local] Abbreviation ksep := (":" :: kws) (only parsing).

Lemma encode_list (xs : list value) :
  encode ea isep ksep (VList xs) = "[" :: elements ea isep ksep xs ++ ["]"].
Proof. reflexivity. Qed.

Lemma encode_dict (items : list (string * value)) :
  encode ea isep ksep (VDict items) = "{" :: members ea isep ksep items ++ ["}"].
Proof. reflexivity. Qed.

Lemma elements_cons (x : value) (xs : list value) :
  elements ea isep ksep (x :: xs)
  = encode ea isep ksep x ++
    match xs with [] => [] | _ :: _ => isep ++ elements ea isep ksep xs end.
Proof. reflexivity. Qed.

Lemma members_cons (k : string) (x : value) (items : list (string * value)) :
  members ea isep ksep ((k, x) :: items)
  = quote ea k ++ ksep ++ encode ea isep ksep x ++
    match items with [] => [] | _ :: _ => isep ++ members ea isep ksep items end.
Proof. reflexivity. Qed.

Lemma need_list (xs : list value) : need (VList xs) = S (need_elements xs).
Proof. reflexivity. Qed.
Lemma need_dict items : need (VDict items) = S (need_members items).
Proof. reflexivity. Qed.

Lemma encode_head (v : value) :
  exists c tl, encode ea isep ksep v = c :: tl /\ opens_value c.
Proof.
  destruct v as [| [] | z | s | xs | items];
    try (eexists; eexists; split; [reflexivity | repeat split]).
  unfold encode, int_repr.
  destruct (Z.ltb_spec z 0) as [Hneg | Hpos].
  - eexists; eexists; split; [reflexivity | repeat split].
  - destruct (scan_nat_repr z [] Hpos eq_refl) as (d & ds & Heq & Hdig & _).
    rewrite Heq. exists d, ds. split; [reflexivity |].
    split; [apply digit_is_not_ws, Hdig |].
    split; rewrite ascii_eqb_nat, Nat.eqb_sym, <- ascii_eqb_nat;
      apply (digit_is_not d _ Hdig); reflexivity.
Qed.

Lemma elements_read_back (xs : list value) :
  Forall (reads_back ea iws kws) xs -> xs <> [] ->
  forall fuel ws rest,
    (need_elements xs <= fuel)%nat -> all_ws ws ->
    parse_elements fuel (ws ++ elements ea isep ksep xs ++ "]" :: rest)
    = Some (xs, rest).
Proof.
  induction 1 as [| x xs Hx Hxs IH]; [congruence |].
  intros _ fuel ws rest Hfuel Hws.
  cbn [need_elements] in Hfuel. fold need_elements in Hfuel.
  destruct fuel as [| f]; [lia |].
  rewrite parse_elements_S, elements_cons, <- app_assoc.
  destruct xs as [| y ys].
  - cbn [app]. rewrite (Hx f ws ("]" :: rest)) by (auto; lia).
    reflexivity.
  - cbn [app]. rewrite <- app_assoc.
    rewrite (Hx f ws) by (auto; lia).
    rewrite skip_ws_head by reflexivity.
    change (Ascii.eqb "," "]") with false.
    change (Ascii.eqb "," ",") with true. cbn match.
    rewrite (IH ltac:(discriminate) f iws rest) by (auto; lia).
    reflexivity.
Qed.

Lemma quote_scan (s : string) (rest : list ascii) :
  exists tl, quote ea s ++ rest = dquote :: tl /\
             scan_string tl = Some (list_ascii_of_string s, rest).
Proof.
  unfold quote. eexists. split.
  - cbn [app]. rewrite <- app_assoc. reflexivity.
  - apply scan_string_escaped.
Qed.

Lemma members_read_back (items : list (string * value)) :
  Forall (fun kv => reads_back ea iws kws (snd kv)) items -> items <> [] ->
  forall fuel ws rest,
    (need_members items <= fuel)%nat -> all_ws ws ->
    parse_members fuel (ws ++ members ea isep ksep items ++ "}" :: rest)
    = Some (items, rest).
Proof.
  induction 1 as [| [k x] items Hx Hitems IH]; [congruence |].
  intros _ fuel ws rest Hfuel Hws. cbn [snd] in Hx.
  cbn [need_members] in Hfuel. fold need_members in Hfuel.
  destruct fuel as [| f]; [lia |].
  rewrite parse_members_S, members_cons, skip_ws_app by exact Hws.
  rewrite <- !app_assoc.
  destruct (quote_scan k
              (ksep ++ encode ea isep ksep x ++
               match items with
               | [] => []
               | _ :: _ => isep ++ members ea isep ksep items
               end ++ "}" :: rest)) as (tl & -> & Hscan).
  rewrite skip_ws_head by reflexivity.
  cbn [strip_prefix]. change (Ascii.eqb dquote dquote) with true. cbn match.
  rewrite Hscan. cbn [app].
  rewrite skip_ws_head by reflexivity.
  cbn [strip_prefix]. change (Ascii.eqb ":" ":") with true. cbn match.
  rewrite string_of_list_ascii_of_string.
  destruct items as [| kv items'].
  - cbn [app]. rewrite (Hx f kws ("}" :: rest)) by (auto; lia).
    reflexivity.
  - cbn [app]. rewrite <- app_assoc.
    rewrite (Hx f kws) by (auto; lia).
    rewrite skip_ws_head by reflexivity.
    change (Ascii.eqb "," "}") with false.
    change (Ascii.eqb "," ",") with true. cbn match.
    rewrite (IH ltac:(discriminate) f iws rest) by (auto; lia).
    reflexivity.
Qed.

Lemma int_repr_head (z : Z) :
  exists c tl, int_repr z = c :: tl /\ (c = "-" \/ is_digit c = true).
Proof.
  unfold int_repr. destruct (Z.ltb_spec z 0) as [Hneg | Hpos].
  - eexists; eexists; split; [reflexivity | left; reflexivity].
  - destruct (scan_nat_repr z [] Hpos eq_refl) as (d & ds & Heq & Hdig & _).
    rewrite Heq. exists d, ds. split; [reflexivity | right; exact Hdig].
Qed.

Lemma number_head_is_not (c d : ascii) :
  c = "-" \/ is_digit c = true ->
  ((nat_of_ascii d <? 45) || (57 <? nat_of_ascii d))%nat = true ->
  Ascii.eqb c d = false.
Proof.
  intros Hc Hd. rewrite ascii_eqb_nat. apply Nat.eqb_neq.
  apply orb_true_iff in Hd.
  destruct Hc as [-> | Hc].
  - change (nat_of_ascii "-") with 45%nat.
    destruct Hd as [Hd | Hd]; apply Nat.ltb_lt in Hd; lia.
  - unfold is_digit in Hc. apply andb_true_iff in Hc as [H1 H2].
    apply Nat.leb_le in H1, H2.
    destruct Hd as [Hd | Hd]; apply Nat.ltb_lt in Hd; lia.
Qed.

Lemma number_head_not_ws (c : ascii) :
  c = "-" \/ is_digit c = true -> is_ws c = false.
Proof.
  intros [-> | Hc]; [reflexivity | apply digit_is_not_ws, Hc].
Qed.

(** Hypotheses that hold of the well-formed, on a list of the well-formed. *)
Lemma Forall_modus_ponens {A : Type} (P Q : A -> Prop) (l : list A) :
  Forall (fun x => P x -> Q x) l -> Forall P l -> Forall Q l.
Proof.
  induction 1 as [| x l Hx _ IH]; intros HP; [constructor |].
  inversion HP; subst. constructor; auto.
Qed.

Lemma every_value_reads_back :
  forall v, well_formed v -> reads_back ea iws kws v.
Proof.
  induction v as [| b | z | s | xs IHxs | items IHitems] using value_ind';
    intros Hwf fuel ws rest Hfuel Hws Hrest;
    (destruct fuel as [| f]; [cbn in Hfuel; lia |]);
    rewrite parse_value_S, skip_ws_app by exact Hws.
  - reflexivity.
  - destruct b; reflexivity.
  - destruct (int_repr_head z) as (c & tl & Heq & Hc).
    pose proof (scan_int_repr z rest Hrest) as Hscan.
    cbn [encode]. rewrite Heq in Hscan |- *. cbn [app] in Hscan |- *.
    rewrite skip_ws_head by (apply number_head_not_ws, Hc).
    rewrite !(number_head_is_not c _ Hc) by reflexivity.
    rewrite Hscan. reflexivity.
  - destruct (quote_scan s rest) as (tl & Heq & Hscan).
    cbn [encode]. rewrite Heq, skip_ws_head by reflexivity.
    change (Ascii.eqb dquote dquote) with true. cbn match.
    rewrite Hscan, string_of_list_ascii_of_string. reflexivity.
  - rewrite encode_list. cbn [app]. rewrite <- app_assoc. cbn [app].
    rewrite skip_ws_head by reflexivity.
    change (Ascii.eqb "[" dquote) with false.
    change (Ascii.eqb "[" "[") with true. cbn match.
    destruct xs as [| x xs].
    + reflexivity.
    + rewrite need_list in Hfuel.
      pose proof (elements_read_back (x :: xs)
                    (Forall_modus_ponens _ _ _ IHxs (well_formed_list _ Hwf))
                    ltac:(discriminate)
                    f [] rest ltac:(lia) ltac:(constructor)) as Hread.
      cbn [app] in Hread. rewrite Hread.
      destruct (encode_head x) as (c & tl & Heq & Hws' & Hb1 & Hb2).
      rewrite elements_cons, Heq. cbn [app].
      rewrite skip_ws_head by exact Hws'.
      cbn [strip_prefix]. rewrite Hb1. reflexivity.
  - rewrite encode_dict. cbn [app]. rewrite <- app_assoc. cbn [app].
    rewrite skip_ws_head by reflexivity.
    change (Ascii.eqb "{" dquote) with false.
    change (Ascii.eqb "{" "[") with false.
    change (Ascii.eqb "{" "{") with true. cbn match.
    destruct items as [| [k x] items].
    + reflexivity.
    + rewrite need_dict in Hfuel.
      destruct (well_formed_dict _ Hwf) as [Hkeys Hall].
      pose proof (members_read_back ((k, x) :: items)
                    (Forall_modus_ponens
                       (fun kv => well_formed (snd kv))
                       (fun kv => reads_back ea iws kws (snd kv))
                       _ IHitems Hall)
                    ltac:(discriminate) f [] rest ltac:(lia)
                    ltac:(constructor)) as Hread.
      cbn [app] in Hread. rewrite Hread.
      rewrite members_cons. unfold quote. cbn [app].
      rewrite skip_ws_head by reflexivity.
      cbn [strip_prefix]. change (Ascii.eqb "}" dquote) with false.
      cbn match. rewrite dict_of_items_distinct by exact Hkeys.
      reflexivity.
Qed.

Lemma need_le_length : forall v,
  (need v <= List.length (encode ea isep ksep v))%nat.
Proof.
  induction v as [| b | z | s | xs IHxs | items IHitems] using value_ind'.
  - cbn. lia.
  - destruct b; cbn; lia.
  - destruct (int_repr_head z) as (c & tl & Heq & _).
    cbn [need encode]. rewrite Heq. cbn [List.length]. lia.
  - cbn [need encode]. unfold quote. cbn [List.length]. lia.
  - rewrite need_list, encode_list. cbn [List.length].
    rewrite length_app. cbn [List.length].
    enough (need_elements xs <= List.length (elements ea isep ksep xs) + 1)%nat
      by lia.
    induction IHxs as [| x xs Hx _ IH]; [cbn; lia |].
    rewrite elements_cons. cbn [need_elements]. fold need_elements.
    rewrite length_app.
    destruct xs as [| y ys].
    + cbn [need_elements List.length]. lia.
    + rewrite length_app. cbn [List.length]. lia.
  - rewrite need_dict, encode_dict. cbn [List.length].
    rewrite length_app. cbn [List.length].
    enough (need_members items
            <= List.length (members ea isep ksep items) + 1)%nat by lia.
    induction IHitems as [| [k x] items Hx _ IH]; [cbn; lia |].
    cbn [snd] in Hx.
    rewrite members_cons. cbn [need_members]. fold need_members.
    rewrite !length_app.
    destruct items as [| kv items'].
    + cbn [need_members List.length]. lia.
    + rewrite length_app. cbn [List.length]. lia.
Qed.

(** Text written with such separators reads back as the value written. *)
Lemma loads_encode (v : value) :
  well_formed v ->
  loads (string_of_list_ascii (encode ea isep ksep v)) = Some v.
Proof.
  intros Hwf. unfold loads. rewrite list_ascii_of_string_of_list_ascii.
  pose proof (every_value_reads_back v Hwf
                (2 * List.length (encode ea isep ksep v) + 2)%nat [] []) as H.
  cbn [app] in H. rewrite app_nil_r in H.
  rewrite H; [reflexivity | | constructor | reflexivity].
  pose proof (need_le_length v). lia.
Qed.

End RoundTrip.

(** [json.loads(json.dumps(v)) == v], for every value. *)
Lemma loads_dumps (v : value) :
  well_formed v -> loads (dumps v) = Some v.
Proof.
  apply (loads_encode true [" "] [" "]); repeat constructor.
Qed.

Lemma loads_dumps_compact (v : value) :
  well_formed v -> loads (dumps_compact v) = Some v.
Proof.
  apply (loads_encode false [] []); constructor.
Qed.

(** An envelope made of well-formed arguments is well formed. *)
Lemma response_ok_well_formed (message success data paginator : option value) :
  well_formed_arg message -> well_formed_arg success ->
  well_formed_arg data -> well_formed_arg paginator ->
  well_formed (response_ok message success data paginator).
Proof.
  intros Hm Hs Hd Hp. unfold response_ok. cbn [well_formed map fst].
  split.
  - repeat constructor; cbn; intuition discriminate.
  - destruct message, success, data, paginator; cbn [arg well_formed_arg] in *;
      repeat split; try assumption; constructor.
Qed.

#[local] Close Scope char_scope.
#[local] Close Scope list_scope.

(** C9: the envelope [response_ok(message="x", data={"a": 1})] written as
    JSON text and read back is the same mapping, the same four fields with
    the same values; and so is every envelope [response_ok] makes of
    arguments that are Python objects. *)
Theorem envelope_json_round_trip :
  let envelope :=
    response_ok (Some (VStr "x")) None (Some (VDict [("a", VInt 1)])) None in
  json.dumps envelope
  = json.text "{'message': 'x', 'success': true, 'data': {'a': 1}, 'paginator': {}}" /\
  (exists decoded,
      json.loads (json.dumps envelope) = Some decoded /\
      dict_keys decoded = Some standard_fields /\
      dict_get "message" decoded = Some (VStr "x") /\
      dict_get "success" decoded = Some (VBool true) /\
      dict_get "data" decoded = Some (VDict [("a", VInt 1)]) /\
      dict_get "paginator" decoded = Some (VDict []) /\
      decoded = envelope) /\
  (forall message success data paginator : option value,
      well_formed_arg message -> well_formed_arg success ->
      well_formed_arg data -> well_formed_arg paginator ->
      json.loads (json.dumps (response_ok message success data paginator))
      = Some (response_ok message success data paginator) /\
      json.loads (json.dumps_compact (response_ok message success data paginator))
      = Some (response_ok message success data paginator)).
Proof.
  split; [vm_compute; reflexivity |]. split.
  - eexists. split; [vm_compute; reflexivity |]. repeat split.
  - intros message success data paginator Hm Hs Hd Hp.
    pose proof (response_ok_well_formed _ _ _ _ Hm Hs Hd Hp) as Hwf.
    split.
    + apply loads_dumps, Hwf.
    + apply loads_dumps_compact, Hwf.
Qed.

End json_facts.

(** ** The resource container *)

Module objects_facts.

Import objects props deployment.

#[local] Arguments String.append : simpl never.

Ltac unfold_py :=
  unfold initialize, destroy, set_database, set_connection, set_channel,
    logger_info, logger_warning, logger_error, log, emit, call,
    get_resources, put_resources, try_except, bind, ret, raise.

(** The outcomes of the four driver calls of the broker block, in turn. *)
Ltac case_broker env :=
  destruct (pika_PlainCredentials env _ _); cbn;
  [destruct (pika_ConnectionParameters env _ _ _ _); cbn;
   [destruct (pika_BlockingConnection env _); cbn;
    [destruct (Connection_channel env _); cbn |] |] |].

(** [initialize] does not touch the module attribute. *)
Lemma initialize_keeps_app_resources env s :
  app_resources (snd (initialize env s)) = app_resources s.
Proof.
  unfold_py; cbn.
  destruct (pymongo_MongoClient env _) as [c | e]; cbn;
    [| destruct (is_ConnectionFailure e); cbn; [| reflexivity]];
    case_broker env;
    reflexivity.
Qed.

(** [initialize] raises only what the database client call raised, when
    that is no [ConnectionFailure]. *)
Lemma initialize_raise_inv env s e s1 :
  initialize env s = (Raise e, s1) ->
  pymongo_MongoClient env "mongodb://localhost:27017/" = Raise e /\
  is_ConnectionFailure e = false.
Proof.
  unfold_py; cbn.
  destruct (pymongo_MongoClient env _) as [c | e0]; cbn;
    [| destruct (is_ConnectionFailure e0) eqn:Hcf; cbn;
       [| intros [= <- <-]; auto]];
    case_broker env;
    discriminate.
Qed.

(** [destroy] on a container without a database raises at its first
    statement, before anything is logged or closed. *)
Lemma destroy_without_database env self s :
  database self = None ->
  destroy env self s = (Raise (NoneType_has_no_attribute "client"), s).
Proof.
  intros H. unfold_py. rewrite H. reflexivity.
Qed.



(** C3, as stated, fails in two runs.  When the connection opens and the
    channel does not, the failure is logged as a connection failure and
    the connection handle stays set.  And on the container [initialize]
    leaves when neither connection could be made, whose broker connection
    handle is [None], [destroy] raises at the database statement and the
    warning is never logged. *)
Lemma broker_handles_and_warning_counterexample :
  (exists r s',
      initialize env_no_channel initial_state = (Return r, s') /\
      In (objects_log ERROR
            ("RabbitMQ Connection Failed: " ++ exc_str channel_closed))
         (trace s') /\
      connection r = Some a_connection) /\
  (exists r s' e s'',
      initialize env_all_down initial_state = (Return r, s') /\
      connection r = None /\
      destroy env_all_down r s' = (Raise e, s'') /\
      ~ In (objects_log WARNING
              "RabbitMQ Connection object is None, skipping closing.")
           (trace s'')).
Proof.
  split.
  - do 2 eexists. split; [vm_compute; reflexivity |]. split; [| reflexivity].
    cbn. auto 10.
  - do 4 eexists. split; [vm_compute; reflexivity |]. split; [reflexivity |].
    split; [vm_compute; reflexivity |].
    cbn. intros H.
    repeat (destruct H as [H | H]; [discriminate H |]). exact H.
Qed.

(** C3, amended: when the broker block of [initialize] fails, the failure
    is logged; the channel and connection handles are both [None] when
    opening the connection failed (the credentials, the parameters or the
    connection call raised), and when it is the channel that could not be
    opened the connection handle stays set and the channel handle is
    [None].  On any container whose connection handle is [None], [destroy]
    never calls close on a broker connection and raises only what its
    database statement raises: whenever that statement completes it
    returns normally having logged the warning. *)
Theorem broker_failure_and_teardown
  (env : Env) (s : State) (self : AppResources) (s0 : State) :
  database_block_passes env ->
  connection self = None ->
  (exists r s' evs,
      initialize env s = (Return r, s') /\
      trace s' = (trace s ++ evs)%list /\
      match broker_connect env with
      | Raise e =>
          channel r = None /\ connection r = None /\
          In (objects_log ERROR ("RabbitMQ Connection Failed: " ++ exc_str e))
             evs
      | Return c =>
          connection r = Some c /\
          match Connection_channel env c with
          | Raise e =>
              channel r = None /\
              In (objects_log ERROR
                    ("RabbitMQ Connection Failed: " ++ exc_str e)) evs
          | Return ch => channel r = Some ch
          end
      end) /\
  (exists evs,
      trace (snd (destroy env self s0)) = (trace s0 ++ evs)%list /\
      (forall c, ~ In (Called (Call_Connection_close c)) evs) /\
      match database_step env self with
      | Raise e' => fst (destroy env self s0) = Raise e'
      | Return _ =>
          fst (destroy env self s0) = Return tt /\
          In (objects_log WARNING
                "RabbitMQ Connection object is None, skipping closing.") evs
      end).
Proof.
  intros Hdb Hconn. split.
  - revert Hdb. unfold database_block_passes, broker_connect.
    unfold_py; cbn.
    destruct (pymongo_MongoClient env _) as [c | e0]; cbn;
      intros Hdb; [| rewrite Hdb; cbn];
      case_broker env;
      do 2 eexists; eexists; (split; [reflexivity |]); cbn;
      rewrite <- ?app_assoc;
      (split; [reflexivity |]); repeat split; cbn; auto 10.
  - unfold database_step. unfold_py. rewrite Hconn.
    destruct (database self) as [db |]; cbn.
    + destruct (MongoClient_close env (client db)) as [[] | e']; cbn;
        eexists; rewrite <- ?app_assoc; (split; [reflexivity |]);
        (split; [| cbn; auto]);
        intros c H; cbn in H;
        repeat (destruct H as [H | H]; [discriminate H |]); exact H.
    + exists []. rewrite app_nil_r. repeat split. intros c [].
Qed.

(** Its use on a run in which the database is reached and the broker is
    not, [destroy] being given a container of that kind. *)
Lemma broker_failure_and_teardown_witness :
  database_block_passes env_broker_down /\
  connection database_only = None /\
  (exists r s' evs,
      initialize env_broker_down initial_state = (Return r, s') /\
      trace s' = (trace initial_state ++ evs)%list /\
      match broker_connect env_broker_down with
      | Raise e =>
          channel r = None /\ connection r = None /\
          In (objects_log ERROR ("RabbitMQ Connection Failed: " ++ exc_str e))
             evs
      | Return c =>
          connection r = Some c /\
          match Connection_channel env_broker_down c with
          | Raise e =>
              channel r = None /\
              In (objects_log ERROR
                    ("RabbitMQ Connection Failed: " ++ exc_str e)) evs
          | Return ch => channel r = Some ch
          end
      end) /\
  (exists evs,
      trace (snd (destroy env_broker_down database_only initial_state))
      = (trace initial_state ++ evs)%list /\
      (forall c, ~ In (Called (Call_Connection_close c)) evs) /\
      match database_step env_broker_down database_only with
      | Raise e' =>
          fst (destroy env_broker_down database_only initial_state) = Raise e'
      | Return _ =>
          fst (destroy env_broker_down database_only initial_state) = Return tt /\
          In (objects_log WARNING
                "RabbitMQ Connection object is None, skipping closing.") evs
      end).
Proof.
  split; [exact I |]. split; [reflexivity |].
  apply (broker_failure_and_teardown env_broker_down initial_state
           database_only initial_state); [exact I | reflexivity].
Defined.

(** C4: [destroy] reads [self.database.client] without a test, so on every
    container whose database handle is [None] it raises [AttributeError] at
    once, with nothing logged or closed; it can return normally only on a
    container whose database handle is set. *)
Theorem destroy_needs_the_database
  (env : Env) (self : AppResources) (s : State) :
  database self = None ->
  (exists e,
      destroy env self s = (Raise e, s) /\
      exc_class e = AttributeError /\
      exc_str e = "'NoneType' object has no attribute 'client'") /\
  (forall u s', destroy env self s <> (Return u, s')).
Proof.
  intros H. rewrite (destroy_without_database env self s H). split.
  - eexists. repeat split.
  - intros u s'. discriminate.
Qed.

(** Its use on the container [cls()] makes. *)
Lemma destroy_needs_the_database_witness :
  database AppResources_new = None /\
  (exists e,
      destroy env_up AppResources_new initial_state = (Raise e, initial_state) /\
      exc_class e = AttributeError /\
      exc_str e = "'NoneType' object has no attribute 'client'") /\
  (forall u s',
      destroy env_up AppResources_new initial_state <> (Return u, s')).
Proof.
  split; [reflexivity |].
  apply (destroy_needs_the_database env_up AppResources_new initial_state).
  reflexivity.
Defined.


End objects_facts.

(** ** The application bootstrap *)

Module main_facts.

Import objects main props.

#[local] Arguments String.append : simpl never.

(** C6: whatever exception [initialize] raises, the startup part of
    [lifespan] logs it with [logger.exception] and raises it again: the
    module attribute is not assigned, the start message is not logged, and
    [lifespan] ends there, before its [yield] and without [destroy]. *)
Theorem startup_logs_and_reraises
  (env : Env) (s : State) (e : PyExc) (s1 : State) :
  initialize env s = (Raise e, s1) ->
  exists s2,
    startup env s = (Raise e, s2) /\
    trace s2
    = (trace s1 ++
       [main_log ERROR
          ("Error occurred while initializing the objects: " ++ exc_str e)
          (Some e)])%list /\
    app_resources s2 = app_resources s /\
    forall y, lifespan env y s = (Raise e, s2).
Proof.
  intros H.
  pose proof (objects_facts.initialize_keeps_app_resources env s) as Hkeep.
  unfold lifespan, startup, logger_exception, log, emit, try_except, bind, raise.
  rewrite H in *. cbn in *.
  eexists. split; [reflexivity |]. cbn. auto.
Qed.

(** Its use on a run in which the database client rejects its options. *)
Lemma startup_logs_and_reraises_witness :
  initialize env_misconfigured initial_state
  = (Raise bad_option,
     mkState AppResources_new TheClass
             [Called (Call_MongoClient "mongodb://localhost:27017/")]) /\
  exists s2,
    startup env_misconfigured initial_state = (Raise bad_option, s2) /\
    trace s2
    = ([Called (Call_MongoClient "mongodb://localhost:27017/")] ++
       [main_log ERROR
          ("Error occurred while initializing the objects: "
           ++ exc_str bad_option)
          (Some bad_option)])%list /\
    app_resources s2 = app_resources initial_state /\
    forall y, lifespan env_misconfigured y initial_state = (Raise bad_option, s2).
Proof.
  split; [reflexivity |].
  apply (startup_logs_and_reraises env_misconfigured initial_state bad_option
           (mkState AppResources_new TheClass
                    [Called (Call_MongoClient "mongodb://localhost:27017/")])).
  reflexivity.
Defined.

(** C7: in every store, whatever [app_resources] is bound to, [GET /]
    answers 200 with the liveness body and leaves the store as it was. *)
Theorem root_is_always_healthy (s : State) :
  serve _get_app "GET" "/" s
  = (Return
       (mkResponse 200
          (json.text
             "{'App':'Hotal management API','version':'1.0','status':'healthy'}")),
     s) /\
  json.loads
    (json.text "{'App':'Hotal management API','version':'1.0','status':'healthy'}")
  = Some (VDict [("App", VStr "Hotal management API");
                 ("version", VStr "1.0");
                 ("status", VStr "healthy")]).
Proof.
  split; vm_compute; reflexivity.
Qed.

(** After a start in which the database could not be reached, the
    shutdown part of [lifespan] raises from [destroy]: the broker
    connection is not closed and the shutdown message is not logged. *)
Lemma shutdown_after_database_failure env s e y :
  pymongo_MongoClient env "mongodb://localhost:27017/" = Raise e ->
  is_ConnectionFailure e = true ->
  exists s',
    lifespan env y s = (Raise (NoneType_has_no_attribute "client"), s') /\
    exists r, app_resources s' = Instance r /\ database r = None.
Proof.
  intros Hdb Hcf.
  unfold lifespan, startup, shutdown, destroy, initialize.
  unfold set_database, set_connection, set_channel, set_app_resources,
    get_app_resources, main.logger_info, main.logger_exception,
    objects.logger_info, objects.logger_error, log, emit, call,
    get_resources, put_resources, try_except, bind, ret, raise; cbn.
  rewrite Hdb; cbn. rewrite Hcf; cbn.
  objects_facts.case_broker env;
    eexists; (split; [reflexivity |]); cbn; eexists; split; reflexivity.
Qed.

End main_facts.

(** ** Further facts: the response helpers, the documented responses and
    the notification validator *)

Module response_more.

Import response response_schema props more limits.

(** The four-field error helpers raise, as detail, the very mapping
    [response_ok] returns for the same explicit arguments; and
    [response_created] is [response_ok] whenever a message is given: the
    two differ in their default message only. *)
Theorem helpers_share_one_envelope (message success data paginator : value) :
  let given := response_ok (Some message) (Some success) (Some data)
                           (Some paginator) in
  detail_of (response_bad_request (Some message) (Some success) (Some data)
                                  (Some paginator)) = Some given /\
  detail_of (response_unauthenticate (Some message) (Some success) (Some data)
                                     (Some paginator)) = Some given /\
  detail_of (response_not_found (Some message) (Some success) (Some data)
                                (Some paginator)) = Some given /\
  detail_of (response_internal_server_error (Some message) (Some success)
                                            (Some data) (Some paginator))
  = Some given /\
  (forall s d p : option value,
      response_created (Some message) s d p = response_ok (Some message) s d p) /\
  response_created None None None None <> response_ok None None None None.
Proof.
  repeat split. discriminate.
Qed.

Lemma arg_well_formed (default : value) (supplied : option value) :
  well_formed default -> well_formed_arg supplied ->
  well_formed (arg default supplied).
Proof. destruct supplied; cbn; auto. Qed.

Lemma four_fields_well_formed (m s d p : value) :
  well_formed m -> well_formed s -> well_formed d -> well_formed p ->
  well_formed (VDict [("message", m); ("success", s);
                      ("data", d); ("paginator", p)]).
Proof.
  intros Hm Hs Hd Hp. cbn [well_formed map fst]. split.
  - repeat constructor; cbn; intuition discriminate.
  - auto.
Qed.

Lemma two_fields_well_formed (m : value) :
  well_formed m ->
  well_formed (VDict [("message", m); ("success", VBool false)]).
Proof.
  intros Hm. cbn [well_formed map fst]. split.
  - repeat constructor; cbn; intuition discriminate.
  - auto.
Qed.

(** Each payload of well-formed arguments is well formed. *)
Lemma payloads_well_formed (message success data paginator : option value) :
  well_formed_arg message -> well_formed_arg success ->
  well_formed_arg data -> well_formed_arg paginator ->
  Forall well_formed (payloads message success data paginator).
Proof.
  intros Hm Hs Hd Hp.
  assert (Hempty : well_formed (VDict [])) by (split; constructor).
  unfold payloads, response_ok, response_created, response_conflict,
    response_bad_request, response_too_many_active_sessions,
    response_unauthenticate, response_not_found,
    response_sesion_not_available, response_internal_server_error.
  cbn [payload exc_detail].
  repeat apply Forall_cons; try apply Forall_nil;
    first [apply four_fields_well_formed | apply two_fields_well_formed];
    apply arg_well_formed; try assumption; exact I.
Qed.

Lemma json_safe_arg_well_formed (supplied : option value) :
  json_safe_arg supplied -> well_formed_arg supplied.
Proof. destruct supplied as [v |]; [intros [H _]; exact H | auto]. Qed.

(** What any helper hands on is read back unchanged from its JSON text,
    in the default rendering and in the framework's, when the arguments
    are made of [None], booleans, integers of at most 4300 digits,
    strings, lists and dicts with [str] keys, none twice in a dict, nested
    at most 100 deep. *)
Theorem every_payload_round_trips
  (message success data paginator : option value) (v : value) :
  json_safe_arg message -> json_safe_arg success ->
  json_safe_arg data -> json_safe_arg paginator ->
  In v (payloads message success data paginator) ->
  json.loads (json.dumps v) = Some v /\
  json.loads (json.dumps_compact v) = Some v.
Proof.
  intros Hm Hs Hd Hp Hin.
  pose proof (payloads_well_formed _ _ _ _
                (json_safe_arg_well_formed _ Hm)
                (json_safe_arg_well_formed _ Hs)
                (json_safe_arg_well_formed _ Hd)
                (json_safe_arg_well_formed _ Hp)) as Hall.
  rewrite Forall_forall in Hall. specialize (Hall v Hin).
  split.
  - apply json_facts.loads_dumps, Hall.
  - apply json_facts.loads_dumps_compact, Hall.
Qed.

(** Its use on the detail of a not-found error with a message and data. *)
Lemma every_payload_round_trips_witness :
  let message := Some (VStr "No such room") in
  let data := Some (VDict [("room", VInt 12)]) in
  let detail := payload (response_not_found message None data None) in
  json_safe_arg message /\ json_safe_arg None /\ json_safe_arg data /\
  In detail (payloads message None data None) /\
  json.loads (json.dumps detail) = Some detail /\
  json.loads (json.dumps_compact detail) = Some detail.
Proof.
  assert (Hmessage : json_safe_arg (Some (VStr "No such room"))).
  { split; [exact I |]. split; [apply Nat.le_0_l | exact I]. }
  assert (Hdata : json_safe_arg (Some (VDict [("room", VInt 12)]))).
  { split; [| split].
    - split; [repeat constructor; intros [] | split; exact I].
    - unfold max_depth. cbn [depth Nat.max]. repeat constructor.
    - cbn [ints_below]. split; [| exact I].
      apply Z.lt_le_trans with (10 ^ 2)%Z; [reflexivity |].
      unfold max_str_digits. apply Z.pow_le_mono_r; [reflexivity |].
      discriminate. }
  assert (Hin : In (payload (response_not_found (Some (VStr "No such room")) None
                               (Some (VDict [("room", VInt 12)])) None))
                   (payloads (Some (VStr "No such room")) None
                             (Some (VDict [("room", VInt 12)])) None)).
  { cbn. do 6 right. left. reflexivity. }
  split; [exact Hmessage |]. split; [exact I |]. split; [exact Hdata |].
  split; [exact Hin |].
  apply (every_payload_round_trips
           (Some (VStr "No such room")) None
           (Some (VDict [("room", VInt 12)])) None);
    [exact Hmessage | exact I | exact Hdata | exact I | exact Hin].
Defined.

(** The validator returns the values it was given, unchanged, exactly
    when their [n_type] is one of success, error, warning; a [str] that is
    none of them is refused with a [ValueError] that names it, and values
    without [n_type] give a [KeyError].  The default the model declares
    passes. *)
Theorem validate_fields_accepts_the_three_types
  (values : list (string * value)) :
  (forall out, validate_fields values = Return out ->
      out = values /\
      exists s, assoc_get "n_type" values = Some (VStr s) /\
                In s NOTIFICATION_TYPE) /\
  (forall s, assoc_get "n_type" values = Some (VStr s) ->
      In s NOTIFICATION_TYPE -> validate_fields values = Return values) /\
  (forall s, assoc_get "n_type" values = Some (VStr s) ->
      ~ In s NOTIFICATION_TYPE ->
      validate_fields values
      = Raise (ValueError ("Invalid n_type provided: " ++ s))) /\
  (assoc_get "n_type" values = None ->
      validate_fields values = Raise (KeyError "n_type")) /\
  (forall message,
      validate_fields (("message", message) :: notification_defaults)
      = Return (("message", message) :: notification_defaults)).
Proof.
  unfold validate_fields.
  assert (Hin : forall s, existsb (String.eqb s) NOTIFICATION_TYPE = true
                          <-> In s NOTIFICATION_TYPE).
  { intros s. rewrite existsb_exists. split.
    - intros (x & Hx & Heq). apply String.eqb_eq in Heq. subst. exact Hx.
    - intros H. exists s. split; [exact H | apply String.eqb_refl]. }
  split; [| split; [| split; [| split]]].
  - intros out H.
    destruct (assoc_get "n_type" values) as [t |]; [| discriminate H].
    destruct t as [| b | z | s | xs | items];
      cbn [builtins.in_strings negb] in H; try discriminate H.
    destruct (existsb (String.eqb s) NOTIFICATION_TYPE) eqn:E;
      cbn [negb] in H; [| discriminate H].
    injection H as <-. split; [reflexivity |].
    exists s. split; [reflexivity | apply Hin, E].
  - intros s Hs Hmem. rewrite Hs. cbn [builtins.in_strings].
    apply Hin in Hmem. rewrite Hmem. reflexivity.
  - intros s Hs Hmem. rewrite Hs. cbn [builtins.in_strings builtins.str].
    destruct (existsb (String.eqb s) NOTIFICATION_TYPE) eqn:E;
      [apply Hin in E; contradiction | reflexivity].
  - intros ->. reflexivity.
  - intros message. reflexivity.
Qed.

(** The responses documented for the application are those of 201, 204,
    400, 404 and 500, each by an example that is a plain envelope, a
    success for 2xx and a failure otherwise.  The examples of 201 and 500
    are what [response_created] returns and
    [response_internal_server_error] raises by default; those of 400 and
    404 are not what [response_bad_request] and [response_not_found]
    raise by default. *)
Theorem documented_examples_are_plain_envelopes :
  dict_keys STANDARD_RESPONSES = Some ["201"; "204"; "400"; "404"; "500"] /\
  Forall documents_plain_envelope ["201"; "204"; "400"; "404"; "500"] /\
  documented_example "201" = Some (response_created None None None None) /\
  documented_example "500"
  = detail_of (response_internal_server_error None None None None) /\
  documented_example "400"
  <> detail_of (response_bad_request None None None None) /\
  documented_example "404"
  <> detail_of (response_not_found None None None None).
Proof.
  split; [reflexivity |]. split.
  - repeat constructor; eexists; reflexivity.
  - repeat split; try reflexivity; discriminate.
Qed.

End response_more.

(** ** Further facts: the life of the resource container *)

Module lifecycle_facts.

Import objects main props more.

#[local] Arguments String.append : simpl never.

Ltac run_py :=
  unfold lifespan, startup, shutdown, initialize, destroy, after;
  unfold set_database, set_connection, set_channel, set_app_resources,
    get_app_resources, main.logger_info, main.logger_warning,
    main.logger_exception, objects.logger_info, objects.logger_warning,
    objects.logger_error, log, emit, call, get_resources, put_resources,
    try_except, bind, ret, raise;
  cbn.

(** The broker calls in turn, each outcome kept as an equation. *)
Ltac case_broker_eqn env :=
  destruct (pika_PlainCredentials env _ _) eqn:?; cbn;
  [destruct (pika_ConnectionParameters env _ _ _ _) eqn:?; cbn;
   [destruct (pika_BlockingConnection env _) eqn:?; cbn;
    [destruct (Connection_channel env _) eqn:?; cbn |] |] |].

(** What opening the broker connection returned is what the connection
    call returned, the two calls before it having returned. *)
Ltac open_broker_connect H :=
  unfold broker_connect in H;
  destruct (pika_PlainCredentials _ _ _); [| discriminate H]; cbn;
  destruct (pika_ConnectionParameters _ _ _ _ _); [| discriminate H]; cbn.

(** For driver calls that return or raise an instance of [Exception],
    which is what a [PyExc] is, [initialize] returns a container exactly
    when the database call returns or raises a [ConnectionFailure]: every
    [Exception] a broker call raises is caught. *)
Theorem initialize_returns_iff (env : Env) (s : State) :
  (exists r s', initialize env s = (Return r, s')) <->
  database_block_passes env.
Proof.
  unfold database_block_passes. run_py.
  destruct (pymongo_MongoClient env _) as [c | e]; cbn.
  - split; [intros _; exact I | intros _].
    objects_facts.case_broker env; do 2 eexists; reflexivity.
  - destruct (is_ConnectionFailure e); cbn.
    + split; [intros _; reflexivity | intros _].
      objects_facts.case_broker env; do 2 eexists; reflexivity.
    + split; [intros (r & s' & H); discriminate H | discriminate].
Qed.

(** A database exception that is no [ConnectionFailure] ends
    [initialize] at once: it goes out as it is, nothing is logged and no
    broker call is made. *)
Theorem initialize_aborts_before_the_broker (env : Env) (s : State) (e : PyExc) :
  pymongo_MongoClient env "mongodb://localhost:27017/" = Raise e ->
  is_ConnectionFailure e = false ->
  initialize env s
  = (Raise e,
     mkState AppResources_new (app_resources s)
             (trace s ++ [Called (Call_MongoClient "mongodb://localhost:27017/")])).
Proof.
  intros Hdb Hcf. run_py. rewrite Hdb; cbn. rewrite Hcf. reflexivity.
Qed.

Lemma initialize_aborts_before_the_broker_witness :
  pymongo_MongoClient env_misconfigured "mongodb://localhost:27017/"
  = Raise bad_option /\
  is_ConnectionFailure bad_option = false /\
  initialize env_misconfigured initial_state
  = (Raise bad_option,
     mkState AppResources_new (app_resources initial_state)
             (trace initial_state
              ++ [Called (Call_MongoClient "mongodb://localhost:27017/")])).
Proof.
  split; [reflexivity |]. split; [reflexivity |].
  apply (initialize_aborts_before_the_broker env_misconfigured initial_state
           bad_option); reflexivity.
Defined.

(** In the container [initialize] returns, a handle that is set is the
    one the driver returned: the database is [hotel_users] of the client
    made, the connection is the one opened, and a channel is there only
    with its connection, on which it was opened.  The other three
    attributes are never set. *)
Theorem initialize_handles_come_from_the_drivers
  (env : Env) (s : State) (r : AppResources) (s' : State) :
  initialize env s = (Return r, s') ->
  (forall db, database r = Some db ->
      db_name db = "hotel_users" /\
      pymongo_MongoClient env "mongodb://localhost:27017/"
      = Return (client db)) /\
  (forall c, connection r = Some c -> broker_connect env = Return c) /\
  (forall ch, channel r = Some ch ->
      exists c, connection r = Some c /\
                Connection_channel env c = Return ch) /\
  paho r = None /\ celery_broker r = None /\ celery_backend r = None /\
  resources s' = r.
Proof.
  unfold broker_connect. run_py.
  destruct (pymongo_MongoClient env _) as [c | e] eqn:Hdb; cbn;
    [| destruct (is_ConnectionFailure e) eqn:Hcf; cbn; [| discriminate]];
    case_broker_eqn env;
    intros [= <- <-]; cbn;
    repeat split; intros; try discriminate;
    repeat match goal with
           | H : Some _ = Some _ |- _ => injection H as <-
           end;
    cbn; eauto.
Qed.

Lemma initialize_handles_come_from_the_drivers_witness :
  initialize env_up initial_state
  = (Return connected, snd (initialize env_up initial_state)) /\
  (forall db, database connected = Some db ->
      db_name db = "hotel_users" /\
      pymongo_MongoClient env_up "mongodb://localhost:27017/"
      = Return (client db)) /\
  (forall c, connection connected = Some c ->
      broker_connect env_up = Return c) /\
  (forall ch, channel connected = Some ch ->
      exists c, connection connected = Some c /\
                Connection_channel env_up c = Return ch) /\
  paho connected = None /\ celery_broker connected = None /\
  celery_backend connected = None /\
  resources (snd (initialize env_up initial_state)) = connected.
Proof.
  split; [reflexivity |].
  apply (initialize_handles_come_from_the_drivers env_up initial_state
           connected (snd (initialize env_up initial_state))).
  reflexivity.
Defined.

(** When every call returns, [initialize] returns the container with
    the three handles, having called the drivers in the order database,
    credentials, parameters, connection, channel, and logged the two
    connections and nothing else. *)
Theorem initialize_when_everything_connects
  (env : Env) (s : State) (c : MongoClient) (conn : Connection) (ch : Channel) :
  all_connect env c conn ch ->
  initialize env s
  = (Return (container (Some (mkDatabase c "hotel_users")) (Some ch) (Some conn)),
     mkState (container (Some (mkDatabase c "hotel_users")) (Some ch) (Some conn))
             (app_resources s)
             (trace s ++
              [Called (Call_MongoClient "mongodb://localhost:27017/");
               objects_log INFO "MongoDB Connected!";
               Called Call_PlainCredentials;
               Called Call_ConnectionParameters;
               Called Call_BlockingConnection;
               Called (Call_channel conn);
               objects_log INFO "RabbitMQ Connected!"])).
Proof.
  intros (Hdb & Hconn & Hch).
  run_py. rewrite Hdb; cbn. open_broker_connect Hconn.
  rewrite Hconn; cbn. rewrite Hch; cbn.
  rewrite <- !app_assoc. reflexivity.
Qed.

Lemma initialize_when_everything_connects_witness :
  all_connect env_up a_client a_connection a_channel /\
  initialize env_up initial_state
  = (Return connected,
     mkState connected (app_resources initial_state)
             (trace initial_state ++
              [Called (Call_MongoClient "mongodb://localhost:27017/");
               objects_log INFO "MongoDB Connected!";
               Called Call_PlainCredentials;
               Called Call_ConnectionParameters;
               Called Call_BlockingConnection;
               Called (Call_channel a_connection);
               objects_log INFO "RabbitMQ Connected!"])).
Proof.
  assert (H : all_connect env_up a_client a_connection a_channel)
    by (repeat split).
  split; [exact H |].
  apply (initialize_when_everything_connects env_up initial_state
           a_client a_connection a_channel H).
Defined.

(** [initialize] starts from a new container each time: what it
    returns, what it leaves in the local variable and what it logs and
    calls are the same from any two stores, whatever handles they held. *)
Theorem initialize_starts_afresh (env : Env) (s1 s2 : State) :
  fst (initialize env s1) = fst (initialize env s2) /\
  resources (snd (initialize env s1)) = resources (snd (initialize env s2)) /\
  exists evs,
    trace (snd (initialize env s1)) = (trace s1 ++ evs)%list /\
    trace (snd (initialize env s2)) = (trace s2 ++ evs)%list.
Proof.
  run_py.
  destruct (pymongo_MongoClient env _) as [c | e]; cbn;
    [| destruct (is_ConnectionFailure e); cbn];
    try objects_facts.case_broker env;
    (split; [reflexivity |]); (split; [reflexivity |]);
    eexists; rewrite <- ?app_assoc; split; reflexivity.
Qed.

Ltac not_among :=
  let H := fresh "H" in
  intros H; unfold main_log, objects_log, shutting_down in H; cbn in H;
  repeat (destruct H as [H | H]; [discriminate H |]); exact H.

(** With both handles set and both closes returning, [destroy] closes
    the database client, then the broker connection, logging each, and
    nothing else: the channel is not closed by a call of its own. *)
Theorem destroy_closes_database_then_broker
  (env : Env) (self : AppResources) (s : State) (db : Database) (c : Connection) :
  database self = Some db ->
  connection self = Some c ->
  MongoClient_close env (client db) = Return tt ->
  Connection_close env c = Return tt ->
  destroy env self s
  = (Return tt,
     after s [Called (Call_MongoClient_close (client db));
              objects_log INFO "MongoDB Connection Closed!";
              Called (Call_Connection_close c);
              objects_log INFO "RabbitMQ Connection Closed!"]).
Proof.
  intros Hdb Hconn Hc1 Hc2. run_py. rewrite Hdb, Hconn; cbn.
  rewrite Hc1; cbn. rewrite Hc2; cbn. rewrite <- !app_assoc. reflexivity.
Qed.

Lemma destroy_closes_database_then_broker_witness :
  database connected = Some (mkDatabase a_client "hotel_users") /\
  connection connected = Some a_connection /\
  MongoClient_close env_up a_client = Return tt /\
  Connection_close env_up a_connection = Return tt /\
  destroy env_up connected initial_state
  = (Return tt,
     after initial_state
       [Called (Call_MongoClient_close a_client);
        objects_log INFO "MongoDB Connection Closed!";
        Called (Call_Connection_close a_connection);
        objects_log INFO "RabbitMQ Connection Closed!"]).
Proof.
  repeat (split; [reflexivity |]).
  apply (destroy_closes_database_then_broker env_up connected initial_state
           (mkDatabase a_client "hotel_users") a_connection); reflexivity.
Defined.

(** When closing the database client raises, [destroy] ends there: the
    exception goes out, nothing is logged, and the broker connection,
    set or not, is not closed. *)
Theorem destroy_stops_when_the_database_close_fails
  (env : Env) (self : AppResources) (s : State) (db : Database) (e : PyExc) :
  database self = Some db ->
  MongoClient_close env (client db) = Raise e ->
  destroy env self s
  = (Raise e, after s [Called (Call_MongoClient_close (client db))]).
Proof.
  intros Hdb Hc1. run_py. rewrite Hdb; cbn. rewrite Hc1. reflexivity.
Qed.

Lemma destroy_stops_when_the_database_close_fails_witness :
  database connected = Some (mkDatabase a_client "hotel_users") /\
  MongoClient_close (env_closing (Raise not_primary) (Return tt)) a_client
  = Raise not_primary /\
  destroy (env_closing (Raise not_primary) (Return tt)) connected initial_state
  = (Raise not_primary,
     after initial_state [Called (Call_MongoClient_close a_client)]).
Proof.
  repeat (split; [reflexivity |]).
  apply (destroy_stops_when_the_database_close_fails
           (env_closing (Raise not_primary) (Return tt)) connected
           initial_state (mkDatabase a_client "hotel_users") not_primary);
    reflexivity.
Defined.

(** When closing the broker connection raises, the exception goes out of
    [destroy] after the database client was closed and that was logged;
    the closing of the broker connection is not logged. *)
Theorem destroy_passes_on_a_broker_close_failure
  (env : Env) (self : AppResources) (s : State) (db : Database)
  (c : Connection) (e : PyExc) :
  database self = Some db ->
  connection self = Some c ->
  MongoClient_close env (client db) = Return tt ->
  Connection_close env c = Raise e ->
  destroy env self s
  = (Raise e,
     after s [Called (Call_MongoClient_close (client db));
              objects_log INFO "MongoDB Connection Closed!";
              Called (Call_Connection_close c)]).
Proof.
  intros Hdb Hconn Hc1 Hc2. run_py. rewrite Hdb, Hconn; cbn.
  rewrite Hc1; cbn. rewrite Hc2; cbn. rewrite <- !app_assoc. reflexivity.
Qed.

Lemma destroy_passes_on_a_broker_close_failure_witness :
  database connected = Some (mkDatabase a_client "hotel_users") /\
  connection connected = Some a_connection /\
  MongoClient_close (env_closing (Return tt) (Raise close_failed)) a_client
  = Return tt /\
  Connection_close (env_closing (Return tt) (Raise close_failed)) a_connection
  = Raise close_failed /\
  destroy (env_closing (Return tt) (Raise close_failed)) connected initial_state
  = (Raise close_failed,
     after initial_state
       [Called (Call_MongoClient_close a_client);
        objects_log INFO "MongoDB Connection Closed!";
        Called (Call_Connection_close a_connection)]).
Proof.
  repeat (split; [reflexivity |]).
  apply (destroy_passes_on_a_broker_close_failure
           (env_closing (Return tt) (Raise close_failed)) connected
           initial_state (mkDatabase a_client "hotel_users") a_connection
           close_failed); reflexivity.
Defined.

(** Startup, when [initialize] returns: the container is bound and the
    start logged. *)
Lemma startup_binds_the_container env s r s1 :
  initialize env s = (Return r, s1) ->
  startup env s = (Return tt, serving s1 r).
Proof.
  intros Hinit.
  unfold startup, serving, main_log, set_app_resources, main.logger_info,
    log, emit, try_except, bind.
  rewrite Hinit. reflexivity.
Qed.

(** [lifespan], once startup is through, is what teardown makes of it. *)
Lemma lifespan_after_startup env y s r s1 :
  initialize env s = (Return r, s1) ->
  lifespan env y s
  = match destroy env r (serving s1 r) with
    | (Return _, s2) =>
        (match y with Thrown e => Raise e | _ => Return tt end,
         after s2 [shutting_down])
    | (Raise e', s2) => (Raise e', s2)
    end.
Proof.
  intros Hinit. unfold lifespan. unfold bind at 1.
  rewrite (startup_binds_the_container env s r s1 Hinit).
  unfold shutdown, get_app_resources, bind.
  change (app_resources (serving s1 r)) with (Instance r).
  destruct (destroy env r (serving s1 r)) as [[[] | e'] s2];
    [| reflexivity].
  destruct y; reflexivity.
Qed.

(** Once startup is through and [destroy] returns, [lifespan] logs the
    shutdown and ends the same way whether it is resumed or cancelled at
    its [yield]; another exception thrown in there goes out again, after
    the same teardown. *)
Theorem lifespan_ends_after_teardown
  (env : Env) (s : State) (r : AppResources) (s1 s2 : State) :
  initialize env s = (Return r, s1) ->
  destroy env r (serving s1 r) = (Return tt, s2) ->
  lifespan env Resumed s = (Return tt, after s2 [shutting_down]) /\
  lifespan env CancelledError s = (Return tt, after s2 [shutting_down]) /\
  forall e, lifespan env (Thrown e) s = (Raise e, after s2 [shutting_down]).
Proof.
  intros Hinit Hdestroy.
  repeat split; intros;
    rewrite (lifespan_after_startup env _ s r s1 Hinit), Hdestroy;
    reflexivity.
Qed.

Lemma lifespan_ends_after_teardown_witness :
  let s1 := snd (initialize env_up initial_state) in
  let s2 := snd (destroy env_up connected (serving s1 connected)) in
  initialize env_up initial_state = (Return connected, s1) /\
  destroy env_up connected (serving s1 connected) = (Return tt, s2) /\
  lifespan env_up Resumed initial_state = (Return tt, after s2 [shutting_down]) /\
  lifespan env_up CancelledError initial_state
  = (Return tt, after s2 [shutting_down]) /\
  forall e, lifespan env_up (Thrown e) initial_state
            = (Raise e, after s2 [shutting_down]).
Proof.
  split; [reflexivity |]. split; [reflexivity |].
  apply (lifespan_ends_after_teardown env_up initial_state connected
           (snd (initialize env_up initial_state))
           (snd (destroy env_up connected
                   (serving (snd (initialize env_up initial_state)) connected))));
    reflexivity.
Defined.

(** When [destroy] raises, that exception is what goes out of
    [lifespan], whatever it was resumed with: an exception thrown in at
    the [yield] is lost, and the shutdown is not logged. *)
Theorem teardown_failure_replaces_what_was_thrown
  (env : Env) (s : State) (r : AppResources) (s1 : State) (e' : PyExc)
  (s2 : State) :
  initialize env s = (Return r, s1) ->
  destroy env r (serving s1 r) = (Raise e', s2) ->
  forall y, lifespan env y s = (Raise e', s2).
Proof.
  intros Hinit Hdestroy y.
  rewrite (lifespan_after_startup env y s r s1 Hinit), Hdestroy.
  reflexivity.
Qed.

Lemma teardown_failure_replaces_what_was_thrown_witness :
  let env := env_closing (Return tt) (Raise close_failed) in
  let s1 := snd (initialize env initial_state) in
  let s2 := snd (destroy env connected (serving s1 connected)) in
  initialize env initial_state = (Return connected, s1) /\
  destroy env connected (serving s1 connected) = (Raise close_failed, s2) /\
  forall y, lifespan env y initial_state = (Raise close_failed, s2).
Proof.
  split; [reflexivity |]. split; [reflexivity |].
  apply (teardown_failure_replaces_what_was_thrown
           (env_closing (Return tt) (Raise close_failed)) initial_state
           connected
           (snd (initialize (env_closing (Return tt) (Raise close_failed))
                   initial_state)));
    reflexivity.
Defined.

(** When every call returns, a run of [lifespan] that is resumed at its
    [yield] connects the database, then the broker, logs the start,
    closes the database, then the broker, logs the shutdown and ends,
    the container it made still bound to the module attribute. *)
Theorem lifespan_when_everything_connects
  (env : Env) (s : State) (c : MongoClient) (conn : Connection) (ch : Channel) :
  all_connect env c conn ch ->
  MongoClient_close env c = Return tt ->
  Connection_close env conn = Return tt ->
  let r := container (Some (mkDatabase c "hotel_users")) (Some ch) (Some conn) in
  lifespan env Resumed s
  = (Return tt,
     mkState r (Instance r)
       (trace s ++
        [Called (Call_MongoClient "mongodb://localhost:27017/");
         objects_log INFO "MongoDB Connected!";
         Called Call_PlainCredentials;
         Called Call_ConnectionParameters;
         Called Call_BlockingConnection;
         Called (Call_channel conn);
         objects_log INFO "RabbitMQ Connected!";
         main_log INFO "Hotal management Application started successfully."
                  None;
         Called (Call_MongoClient_close c);
         objects_log INFO "MongoDB Connection Closed!";
         Called (Call_Connection_close conn);
         objects_log INFO "RabbitMQ Connection Closed!";
         shutting_down])).
Proof.
  intros (Hdb & Hconn & Hch) Hc1 Hc2.
  run_py. rewrite Hdb; cbn. open_broker_connect Hconn.
  rewrite Hconn; cbn. rewrite Hch; cbn. rewrite Hc1; cbn. rewrite Hc2; cbn.
  rewrite <- !app_assoc. reflexivity.
Qed.

Lemma lifespan_when_everything_connects_witness :
  all_connect env_up a_client a_connection a_channel /\
  MongoClient_close env_up a_client = Return tt /\
  Connection_close env_up a_connection = Return tt /\
  lifespan env_up Resumed initial_state
  = (Return tt,
     mkState connected (Instance connected)
       (trace initial_state ++
        [Called (Call_MongoClient "mongodb://localhost:27017/");
         objects_log INFO "MongoDB Connected!";
         Called Call_PlainCredentials;
         Called Call_ConnectionParameters;
         Called Call_BlockingConnection;
         Called (Call_channel a_connection);
         objects_log INFO "RabbitMQ Connected!";
         main_log INFO "Hotal management Application started successfully."
                  None;
         Called (Call_MongoClient_close a_client);
         objects_log INFO "MongoDB Connection Closed!";
         Called (Call_Connection_close a_connection);
         objects_log INFO "RabbitMQ Connection Closed!";
         shutting_down])).
Proof.
  assert (H : all_connect env_up a_client a_connection a_channel)
    by (repeat split).
  split; [exact H |]. split; [reflexivity |]. split; [reflexivity |].
  apply (lifespan_when_everything_connects env_up initial_state
           a_client a_connection a_channel H); reflexivity.
Defined.

(** After a start in which the database raised a [ConnectionFailure],
    every run of [lifespan] ends in the [AttributeError] of [destroy]:
    the start is logged and the container bound, but at shutdown nothing
    is closed, not even a broker connection that was opened, and the
    shutdown is not logged. *)
Theorem lifespan_after_a_database_failure
  (env : Env) (s : State) (e : PyExc) (y : Resumption) :
  pymongo_MongoClient env "mongodb://localhost:27017/" = Raise e ->
  is_ConnectionFailure e = true ->
  exists s' evs r,
    lifespan env y s = (Raise (NoneType_has_no_attribute "client"), s') /\
    trace s' = (trace s ++ evs)%list /\
    app_resources s' = Instance r /\ database r = None /\
    In (main_log INFO "Hotal management Application started successfully."
                 None) evs /\
    Forall (fun c => is_close c = false) (calls_of evs) /\
    ~ In shutting_down evs.
Proof.
  intros Hdb Hcf. run_py. rewrite Hdb; cbn. rewrite Hcf; cbn.
  objects_facts.case_broker env;
    do 3 eexists; (split; [reflexivity |]); cbn; rewrite <- ?app_assoc;
    (split; [reflexivity |]); (split; [reflexivity |]);
    (split; [reflexivity |]);
    (split; [unfold main_log; cbn; auto 12 |]);
    (split; [cbn; repeat constructor | not_among]).
Qed.

Lemma lifespan_after_a_database_failure_witness :
  pymongo_MongoClient env_database_down "mongodb://localhost:27017/"
  = Raise timed_out /\
  is_ConnectionFailure timed_out = true /\
  exists s' evs r,
    lifespan env_database_down Resumed initial_state
    = (Raise (NoneType_has_no_attribute "client"), s') /\
    trace s' = (trace initial_state ++ evs)%list /\
    app_resources s' = Instance r /\ database r = None /\
    In (main_log INFO "Hotal management Application started successfully."
                 None) evs /\
    Forall (fun c => is_close c = false) (calls_of evs) /\
    ~ In shutting_down evs.
Proof.
  split; [reflexivity |]. split; [reflexivity |].
  apply (lifespan_after_a_database_failure env_database_down initial_state
           timed_out Resumed); reflexivity.
Defined.

(** After a start in which the database connected and opening the
    broker connection failed, a run of [lifespan] resumed at its [yield]
    ends normally: the failure was logged, the database client is closed,
    no broker connection is closed, the skipped closing and the shutdown
    are logged. *)
Theorem lifespan_survives_a_broker_failure
  (env : Env) (s : State) (c : MongoClient) (e : PyExc) :
  pymongo_MongoClient env "mongodb://localhost:27017/" = Return c ->
  broker_connect env = Raise e ->
  MongoClient_close env c = Return tt ->
  exists s' evs,
    lifespan env Resumed s = (Return tt, s') /\
    trace s' = (trace s ++ evs)%list /\
    app_resources s'
    = Instance (container (Some (mkDatabase c "hotel_users")) None None) /\
    In (objects_log ERROR ("RabbitMQ Connection Failed: " ++ exc_str e)) evs /\
    In (Called (Call_MongoClient_close c)) evs /\
    (forall x, ~ In (Called (Call_Connection_close x)) evs) /\
    In (objects_log WARNING
          "RabbitMQ Connection object is None, skipping closing.") evs /\
    In shutting_down evs.
Proof.
  intros Hdb Hconn Hc1. unfold broker_connect in Hconn.
  run_py. rewrite Hdb; cbn.
  destruct (pika_PlainCredentials env _ _) as [cr | e1]; cbn;
    [destruct (pika_ConnectionParameters env _ _ _ _) as [p | e2]; cbn;
     [rewrite Hconn; cbn |] |];
    try (injection Hconn as ->);
    rewrite Hc1; cbn;
    do 2 eexists; (split; [reflexivity |]); cbn; rewrite <- ?app_assoc;
    (split; [reflexivity |]); (split; [reflexivity |]);
    unfold objects_log, main_log;
    repeat split; try (cbn; auto 15; fail);
    intros x; not_among.
Qed.

Lemma lifespan_survives_a_broker_failure_witness :
  pymongo_MongoClient env_broker_down "mongodb://localhost:27017/"
  = Return a_client /\
  broker_connect env_broker_down = Raise unreachable /\
  MongoClient_close env_broker_down a_client = Return tt /\
  exists s' evs,
    lifespan env_broker_down Resumed initial_state = (Return tt, s') /\
    trace s' = (trace initial_state ++ evs)%list /\
    app_resources s'
    = Instance (container (Some (mkDatabase a_client "hotel_users")) None None) /\
    In (objects_log ERROR ("RabbitMQ Connection Failed: "
                           ++ exc_str unreachable)) evs /\
    In (Called (Call_MongoClient_close a_client)) evs /\
    (forall x, ~ In (Called (Call_Connection_close x)) evs) /\
    In (objects_log WARNING
          "RabbitMQ Connection object is None, skipping closing.") evs /\
    In shutting_down evs.
Proof.
  split; [reflexivity |]. split; [reflexivity |]. split; [reflexivity |].
  apply (lifespan_survives_a_broker_failure env_broker_down initial_state
           a_client unreachable); reflexivity.
Defined.

End lifecycle_facts.
